(** * snakecharmer: flags, environment and config file bound from a struct

    A shallow embedding of [snakecharmer.go] and of the functional options
    of the package, and the properties of binding ([AddFlags]) and of
    resolution ([UnmarshalExact]).

    Go values are modelled the way [reflect] shows them to the program; the
    two external stores (the cobra flag set and the viper settings store) are
    modelled as finite maps keyed by the dotted key; a Go [error] is the
    format string and arguments it was built from; a panic is a separate
    outcome. *)

From Stdlib Require Import ZArith Ascii String List.
From stdpp Require Import base option list gmap strings.

Open Scope string_scope.
Set Warnings "-register-all,-clear-no-such-hyp".
Set Default Proof Using "Type".

(** ** Strings *)

Module Strings.

(** [len(s) == 0] *)
Definition isEmpty (s : string) : bool :=
  match s with EmptyString => true | String _ _ => false end.

(** [strings.Split(s, ",")[0]]: what precedes the first comma. *)
Fixpoint firstSegment (s : string) : string :=
  match s with
  | EmptyString => EmptyString
  | String c rest =>
      if Ascii.eqb c "," then EmptyString else String c (firstSegment rest)
  end.

(** [strings.TrimPrefix(s, ".")] *)
Definition trimDot (s : string) : string :=
  match s with
  | String c rest => if Ascii.eqb c "." then rest else s
  | EmptyString => s
  end.

(** The white space of [strings.TrimSpace] in the ASCII range:
    tab, line feed, vertical tab, form feed, carriage return, space. *)
Definition isSpace (c : ascii) : bool :=
  let n := nat_of_ascii c in
  (Nat.leb 9 n && Nat.leb n 13) || Nat.eqb n 32.

Fixpoint trimLeft (l : list ascii) : list ascii :=
  match l with
  | c :: rest => if isSpace c then trimLeft rest else l
  | [] => []
  end.

(** [strings.TrimSpace] *)
Definition TrimSpace (s : string) : string :=
  string_of_list_ascii
    (rev (trimLeft (rev (trimLeft (list_ascii_of_string s))))).

(** The loop of [filepath.Ext]: [i] runs from the last byte down to the
    first, stops at a path separator, and returns [path[i:]] at the first
    dot met. [seen] is [path[i+1:]]. *)
Fixpoint extScan (backwards seen : list ascii) : list ascii :=
  match backwards with
  | [] => []
  | c :: more =>
      if Ascii.eqb c "/" then []
      else if Ascii.eqb c "." then c :: seen
      else extScan more (c :: seen)
  end.

(** [filepath.Ext] *)
Definition Ext (path : string) : string :=
  string_of_list_ascii (extScan (rev (list_ascii_of_string path)) []).

(** A Go identifier is exported when it starts with an upper-case letter. *)
Definition IsExported (name : string) : bool :=
  match name with
  | String c _ => let n := nat_of_ascii c in Nat.leb 65 n && Nat.leb n 90
  | EmptyString => false
  end.

End Strings.

(** ** Go values as [reflect] shows them *)

Module Reflect.

Inductive IntKind := Int | Int8 | Int16 | Int32 | Int64.
Inductive UintKind := Uint | Uint8 | Uint16 | Uint32 | Uint64.
Inductive FloatKind := Float32 | Float64.
(** The kinds the program has no case for. *)
Inductive OtherKind :=
  Uintptr | Complex64 | Complex128 | Array | Chan | Func | UnsafePointer.

Inductive Kind :=
| Invalid | Bool | IntK (k : IntKind) | UintK (k : UintKind)
| FloatK (k : FloatKind) | String | Slice | Map | Struct | Ptr | Interface
| OtherK (k : OtherKind).

(** A struct type: its name and whether [ConvertibleTo(time.Time)] holds
    for it (its underlying type is that of [time.Time]). *)
Record StructType := { TypeName : string; ConvertibleToTime : bool }.

(** [reflect.StructField]: the name and the tag, a list of
    [key:"value"] pairs. *)
Record StructField := { Name : string; Tag : list (string * string) }.

(** A Go value. A nil slice, map, pointer or interface is [None]. A slice
    or map whose type is not exactly [[]string] or [map[string]string] keeps
    only the name of its type. *)
Inductive Value :=
| VBool (b : bool)
| VInt (k : IntKind) (n : Z)
| VUint (k : UintKind) (n : Z)
| VFloat (k : FloatKind) (float64bits : Z)
| VString (s : string)
| VStrings (xs : option (list string))
| VSliceOf (type : string)
| VStringMap (m : option (gmap string string))
| VMapOf (type : string)
| VStruct (t : StructType) (fields : list (StructField * Value))
| VPtr (target : option Value)
| VInterface (dynamic : option Value)
| VOther (k : OtherKind).

(** [Value.Kind] *)
Definition kind (v : Value) : Kind :=
  match v with
  | VBool _ => Bool
  | VInt k _ => IntK k
  | VUint k _ => UintK k
  | VFloat k _ => FloatK k
  | VString _ => String
  | VStrings _ | VSliceOf _ => Slice
  | VStringMap _ | VMapOf _ => Map
  | VStruct _ _ => Struct
  | VPtr _ => Ptr
  | VInterface _ => Interface
  | VOther k => OtherK k
  end.

(** [reflect.ValueOf(i).Kind()] for an [interface{}]: the nil interface
    gives the zero [reflect.Value], of kind [Invalid]. *)
Definition kindOf (i : option Value) : Kind :=
  match i with None => Invalid | Some v => kind v end.

Definition isStruct (v : Value) : bool :=
  match v with VStruct _ _ => true | _ => false end.

(** [Kind() == Ptr || Kind() == Interface] followed by [IsNil()] *)
Definition isNilRef (v : Value) : bool :=
  match v with
  | VPtr None | VInterface None => true
  | _ => false
  end.

(** [StructTag.Get]: the value of the first pair with that key, the empty
    string when there is none. *)
Fixpoint Get (tag : list (string * string)) (key : string) : string :=
  match tag with
  | [] => ""
  | (k, v) :: rest => if String.eqb k key then v else Get rest key
  end.

End Reflect.
Export Reflect.

(** ** Errors and panics *)

(** An argument of a format string. [AType] stands for the [%T] or
    [Type().String()] of a value, [AError] for the text of an error. *)
Inductive Msg :=
| Sprintf (format : string) (args : list Arg)
with Arg :=
| AString (s : string)
| AKind (k : Kind)
| AType (v : Value)
| AError (e : Msg).

(** A Go [error] result: [None] is [nil]. *)
Abbreviation error := (option Msg).

(** The outcome of running a method on a state [S]: it returns, with the
    state as the method left it, or it panics. *)
Inductive Run (S A : Type) :=
| Returns (a : A) (s : S)
| Panics (p : Msg).
Arguments Returns {S A} a s.
Arguments Panics {S A} p.

Definition M (S A : Type) : Type := S → Run S A.

Definition ret {S A} (a : A) : M S A := fun s => Returns a s.
Definition panic {S A} (p : Msg) : M S A := fun _ => Panics p.
Definition bind {S A B} (m : M S A) (k : A → M S B) : M S B :=
  fun s => match m s with
           | Returns a s' => k a s'
           | Panics p => Panics p
           end.
Definition gets {S A} (f : S → A) : M S A := fun s => Returns (f s) s.
Definition modify {S} (f : S → S) : M S unit := fun s => Returns tt (f s).

Notation "'run' x := m 'in' k" := (bind m (fun x => k))
  (at level 10, x name, m at level 100, k at level 200,
   format "'run'  x  :=  m  'in' '//' k").
Notation "'exec' m 'in' k" := (bind m (fun _ => k))
  (at level 10, m at level 100, k at level 200,
   format "'exec'  m  'in' '//' k").

(** The panic of the Go runtime on a nil pointer. *)
Definition nilDereference : Msg :=
  Sprintf "runtime error: invalid memory address or nil pointer dereference" [].

(** The panic of [Value.Interface] on a field that is not exported. *)
Definition unexportedInterface : Msg :=
  Sprintf "reflect.Value.Interface: cannot return value obtained from unexported field or method" [].

(** The panic of [Value.Type] on the zero [reflect.Value]. *)
Definition zeroValueType : Msg :=
  Sprintf "reflect: call of reflect.Value.Type on zero Value" [].

(** ** The option store: cobra's persistent flag set *)

Module Cobra.

Inductive FlagType :=
  BoolFlag | Uint64Flag | Int64Flag | Float64Flag | StringFlag
| StringSliceFlag | StringToStringFlag.

(** A [pflag.Flag]: its type, the default it was defined with, its help
    text, its current value and whether the command line set it. *)
Record Flag := {
  FlagKind : FlagType;
  DefValue : Value;
  Usage : string;
  Current : Value;
  Changed : bool;
}.

(** A [cobra.Command], as far as the program uses it: its name and its
    persistent flags by name. *)
Record Command := {
  Use : string;
  PersistentFlags : gmap string Flag;
}.

Definition New (name : string) : Command :=
  {| Use := name; PersistentFlags := ∅ |}.

(** A flag as it is when defined: not set, its value the default. *)
Definition newFlag (t : FlagType) (value : Value) (usage : string) : Flag :=
  {| FlagKind := t; DefValue := value; Usage := usage; Current := value;
     Changed := false |}.

Definition withFlag (name : string) (f : Flag) (c : Command) : Command :=
  {| Use := Use c; PersistentFlags := <[name := f]> (PersistentFlags c) |}.

(** [FlagSet.Lookup]: the flag of that name, [nil] when there is none. The
    pointer it returns is modelled by the name, which identifies the flag
    in the flag set that owns it. *)
Definition Lookup (c : Command) (name : string) : option string :=
  match PersistentFlags c !! name with
  | Some _ => Some name
  | None => None
  end.

(** [FlagSet.Bool], [Uint64], [Int64], [Float64], [String], [StringSlice]
    and [StringToString]: all define a flag through [FlagSet.AddFlag],
    which panics when the name is taken. *)
Definition define (t : FlagType) (name : string) (value : Value)
    (usage : string) : M Command unit :=
  fun c =>
    match PersistentFlags c !! name with
    | Some _ =>
        Panics (Sprintf "%s flag redefined: %s" [AString (Use c); AString name])
    | None => Returns tt (withFlag name (newFlag t value usage) c)
    end.

(** A flag once the command line has set it. *)
Definition setTo (value : Value) (f : Flag) : Flag :=
  {| FlagKind := FlagKind f; DefValue := DefValue f; Usage := Usage f;
     Current := value; Changed := true |}.

(** What parsing [--name=value] does to a defined flag. *)
Definition setFlag (name : string) (value : Value) (c : Command) : Command :=
  {| Use := Use c;
     PersistentFlags := alter (setTo value) name (PersistentFlags c) |}.

(** The command line, parsed: the flags it sets, in order. *)
Definition setFlags (args : list (string * Value)) (c : Command) : Command :=
  foldl (fun c a => setFlag a.1 a.2 c) c args.

End Cobra.

(** ** The settings store: viper *)

Module Viper.

(** Modelled from the spec: the layered settings store is
    [github.com/spf13/viper], whose code is not part of the repository. The
    model keeps the four layers the engine feeds (defaults, bound flags,
    bound environment variables, the config that was read) and the four
    settings of the config-file lookup. Keys are compared as they are
    written. A bound flag is a pointer into the flag set of the command;
    it is kept by name. *)
Record Viper := {
  defaults : gmap string Value;
  pflags : gmap string string;
  env : gmap string (list string);
  config : gmap string Value;
  configFile : string;
  configType : string;
  configName : string;
  configPaths : list string;
}.

(** [viper.New()] *)
Definition New : Viper :=
  {| defaults := ∅; pflags := ∅; env := ∅; config := ∅;
     configFile := ""; configType := ""; configName := "config";
     configPaths := [] |}.

Definition SetDefault (key : string) (value : Value) (v : Viper) : Viper :=
  {| defaults := <[key := value]> (defaults v); pflags := pflags v;
     env := env v; config := config v; configFile := configFile v;
     configType := configType v; configName := configName v;
     configPaths := configPaths v |}.

(** [BindPFlag]: an error when the flag is [nil]. *)
Definition BindPFlag (key : string) (flag : option string) (v : Viper)
    : error * Viper :=
  match flag with
  | None => (Some (Sprintf "flag for %q is nil" [AString key]), v)
  | Some name =>
      (None,
       {| defaults := defaults v; pflags := <[key := name]> (pflags v);
          env := env v; config := config v; configFile := configFile v;
          configType := configType v; configName := configName v;
          configPaths := configPaths v |})
  end.

(** [BindEnv(key, name)]: the variable is added to those bound to the key;
    with these two arguments it returns no error. *)
Definition BindEnv (key name : string) (v : Viper) : error * Viper :=
  (None,
   {| defaults := defaults v; pflags := pflags v;
      env := <[key := (default [] (env v !! key) ++ [name])%list]> (env v);
      config := config v; configFile := configFile v;
      configType := configType v; configName := configName v;
      configPaths := configPaths v |}).

(** The four setters of the config-file lookup ignore an empty argument.
    [AddConfigPath] does not add a directory that is already listed (the
    directory is kept as given, not made absolute); [SetConfigName] also
    forgets the exact file. *)
Definition AddConfigPath (dir : string) (v : Viper) : Viper :=
  if Strings.isEmpty dir then v else
  {| defaults := defaults v; pflags := pflags v; env := env v;
     config := config v; configFile := configFile v;
     configType := configType v; configName := configName v;
     configPaths := if bool_decide (dir ∈ configPaths v) then configPaths v
                    else (configPaths v ++ [dir])%list |}.

Definition SetConfigName (name : string) (v : Viper) : Viper :=
  if Strings.isEmpty name then v else
  {| defaults := defaults v; pflags := pflags v; env := env v;
     config := config v; configFile := ""; configType := configType v;
     configName := name; configPaths := configPaths v |}.

Definition SetConfigType (type : string) (v : Viper) : Viper :=
  if Strings.isEmpty type then v else
  {| defaults := defaults v; pflags := pflags v; env := env v;
     config := config v; configFile := configFile v; configType := type;
     configName := configName v; configPaths := configPaths v |}.

Definition SetConfigFile (path : string) (v : Viper) : Viper :=
  if Strings.isEmpty path then v else
  {| defaults := defaults v; pflags := pflags v; env := env v;
     config := config v; configFile := path; configType := configType v;
     configName := configName v; configPaths := configPaths v |}.

Definition setConfig (c : gmap string Value) (v : Viper) : Viper :=
  {| defaults := defaults v; pflags := pflags v; env := env v;
     config := c; configFile := configFile v; configType := configType v;
     configName := configName v; configPaths := configPaths v |}.

(** [mapstructure.DecoderConfig], without its hooks and its target. *)
Record DecoderConfig := {
  ErrorUnused : bool;
  ErrorUnset : bool;
  ZeroFields : bool;
  WeaklyTypedInput : bool;
  Squash : bool;
  TagName : string;
  IgnoreUntaggedFields : bool;
}.

(** The configuration viper starts every decoding from. *)
Definition defaultDecoderConfig : DecoderConfig :=
  {| ErrorUnused := false; ErrorUnset := false; ZeroFields := false;
     WeaklyTypedInput := true; Squash := false; TagName := "";
     IgnoreUntaggedFields := false |}.

Definition setErrorUnused (b : bool) (dc : DecoderConfig) : DecoderConfig :=
  {| ErrorUnused := b; ErrorUnset := ErrorUnset dc; ZeroFields := ZeroFields dc;
     WeaklyTypedInput := WeaklyTypedInput dc; Squash := Squash dc;
     TagName := TagName dc; IgnoreUntaggedFields := IgnoreUntaggedFields dc |}.

Definition setTagName (s : string) (dc : DecoderConfig) : DecoderConfig :=
  {| ErrorUnused := ErrorUnused dc; ErrorUnset := ErrorUnset dc;
     ZeroFields := ZeroFields dc; WeaklyTypedInput := WeaklyTypedInput dc;
     Squash := Squash dc; TagName := s;
     IgnoreUntaggedFields := IgnoreUntaggedFields dc |}.

Definition setIgnoreUntaggedFields (b : bool) (dc : DecoderConfig)
    : DecoderConfig :=
  {| ErrorUnused := ErrorUnused dc; ErrorUnset := ErrorUnset dc;
     ZeroFields := ZeroFields dc; WeaklyTypedInput := WeaklyTypedInput dc;
     Squash := Squash dc; TagName := TagName dc; IgnoreUntaggedFields := b |}.


(** What [os.Stat] answers: the file information (here, whether the path
    is a directory), or an error, of which [errors.Is(err, os.ErrNotExist)]
    is known. *)
Inductive StatResult :=
| FileInfo (isDir : bool)
| StatError (notExist : bool) (err : Msg).

(** What reading the config file answers. *)
Inductive ReadResult :=
| ReadOk (settings : gmap string Value)
| ReadError (err : Msg).

(** What lies outside the process: the file system, the environment, the
    contents of the config file as the store finds and parses it from its
    four lookup settings (exact file, type, base name, directories), and
    the decoder that copies the settings into the struct it is given, an
    error being all the program sees of it. *)
Record World := {
  Stat : string → StatResult;
  LookupEnv : string → option string;
  readConfig : string → string → string → list string → ReadResult;
  decode : DecoderConfig → gmap string Value → option Value → error;
}.

(** The environment layer: a variable that is set to the empty string
    counts as not set. *)
Definition getEnv (w : World) (name : string) : option string :=
  match LookupEnv w name with
  | Some "" => None
  | r => r
  end.

(** The first of the variables bound to a key that has a value. *)
Fixpoint firstEnv (w : World) (names : list string) : option string :=
  match names with
  | [] => None
  | name :: rest =>
      match getEnv w name with
      | Some s => Some s
      | None => firstEnv w rest
      end
  end.

(** The flag bound to a key, through the flag set that owns it. *)
Definition boundFlag (flags : gmap string Cobra.Flag) (v : Viper)
    (key : string) : option Cobra.Flag :=
  match pflags v !! key with
  | Some name => flags !! name
  | None => None
  end.

(** [Viper.find]: the layers in the order the store consults them. A flag
    counts only when the command line set it; the value of an environment
    variable is its text; the default of a bound flag is the last resort. *)
Definition find (w : World) (flags : gmap string Cobra.Flag) (v : Viper)
    (key : string) : option Value :=
  match boundFlag flags v key with
  | Some f =>
      if Cobra.Changed f then Some (Cobra.Current f) else
      match firstEnv w (default [] (env v !! key)) with
      | Some s => Some (VString s)
      | None =>
          match config v !! key with
          | Some x => Some x
          | None =>
              match defaults v !! key with
              | Some x => Some x
              | None => Some (Cobra.DefValue f)
              end
          end
      end
  | None =>
      match firstEnv w (default [] (env v !! key)) with
      | Some s => Some (VString s)
      | None =>
          match config v !! key with
          | Some x => Some x
          | None => defaults v !! key
          end
      end
  end.

(** [Viper.AllKeys]: every key some layer knows. *)
Definition AllKeys (v : Viper) : gset string :=
  dom (defaults v) ∪ dom (pflags v) ∪ dom (env v) ∪ dom (config v).

(** [Viper.AllSettings]: every key with the value [find] gives it. *)
Definition AllSettings (w : World) (flags : gmap string Cobra.Flag)
    (v : Viper) : gmap string Value :=
  map_imap (fun key _ => find w flags v key) (gset_to_gmap tt (AllKeys v)).

(** [Viper.ReadInConfig]: the config read replaces the one held. *)
Definition ReadInConfig (w : World) (v : Viper) : error * Viper :=
  match readConfig w (configFile v) (configType v) (configName v)
          (configPaths v) with
  | ReadOk c => (None, setConfig c v)
  | ReadError e => (Some e, v)
  end.

(** [Viper.UnmarshalExact]: the options are applied to the default decoder
    configuration, unused keys are made an error, and all settings are
    decoded into [rawVal]. *)
Definition UnmarshalExact (w : World) (flags : gmap string Cobra.Flag)
    (v : Viper) (rawVal : option Value)
    (opts : list (DecoderConfig → DecoderConfig)) : error :=
  decode w (setErrorUnused true (foldl (fun dc o => o dc) defaultDecoderConfig opts))
    (AllSettings w flags v) rawVal.

End Viper.

(** ** The engine *)

(** An element of [decoderConfigOptions]: a function the caller gave, or
    one of the two closures the package builds. The closure of
    [UnmarshalExact] reads [sch.fieldTagName] when the decoder runs it. *)
Inductive DecoderConfigOption :=
| Given (opt : Viper.DecoderConfig → Viper.DecoderConfig)
| IgnoreUntagged (on : bool)
| TagNameOfEngine.

Record SnakeCharmer := {
  resultStruct : option Value;
  fieldTagName : string;
  envTagName : string;
  flagHelpTagName : string;
  configFileType : string;
  configFilePath : string;
  configFileBaseName : string;
  viper : option Viper.Viper;
  cmd : option Cobra.Command;
  decoderConfigOptions : list DecoderConfigOption;
  ignoreUntaggedFields : bool;
}.

Definition set_resultStruct (x : option Value) (sch : SnakeCharmer) : SnakeCharmer :=
  {| resultStruct := x;
     fieldTagName := fieldTagName sch;
     envTagName := envTagName sch;
     flagHelpTagName := flagHelpTagName sch;
     configFileType := configFileType sch;
     configFilePath := configFilePath sch;
     configFileBaseName := configFileBaseName sch;
     viper := viper sch;
     cmd := cmd sch;
     decoderConfigOptions := decoderConfigOptions sch;
     ignoreUntaggedFields := ignoreUntaggedFields sch |}.

Definition set_fieldTagName (x : string) (sch : SnakeCharmer) : SnakeCharmer :=
  {| resultStruct := resultStruct sch;
     fieldTagName := x;
     envTagName := envTagName sch;
     flagHelpTagName := flagHelpTagName sch;
     configFileType := configFileType sch;
     configFilePath := configFilePath sch;
     configFileBaseName := configFileBaseName sch;
     viper := viper sch;
     cmd := cmd sch;
     decoderConfigOptions := decoderConfigOptions sch;
     ignoreUntaggedFields := ignoreUntaggedFields sch |}.

Definition set_envTagName (x : string) (sch : SnakeCharmer) : SnakeCharmer :=
  {| resultStruct := resultStruct sch;
     fieldTagName := fieldTagName sch;
     envTagName := x;
     flagHelpTagName := flagHelpTagName sch;
     configFileType := configFileType sch;
     configFilePath := configFilePath sch;
     configFileBaseName := configFileBaseName sch;
     viper := viper sch;
     cmd := cmd sch;
     decoderConfigOptions := decoderConfigOptions sch;
     ignoreUntaggedFields := ignoreUntaggedFields sch |}.

Definition set_flagHelpTagName (x : string) (sch : SnakeCharmer) : SnakeCharmer :=
  {| resultStruct := resultStruct sch;
     fieldTagName := fieldTagName sch;
     envTagName := envTagName sch;
     flagHelpTagName := x;
     configFileType := configFileType sch;
     configFilePath := configFilePath sch;
     configFileBaseName := configFileBaseName sch;
     viper := viper sch;
     cmd := cmd sch;
     decoderConfigOptions := decoderConfigOptions sch;
     ignoreUntaggedFields := ignoreUntaggedFields sch |}.

Definition set_configFileType (x : string) (sch : SnakeCharmer) : SnakeCharmer :=
  {| resultStruct := resultStruct sch;
     fieldTagName := fieldTagName sch;
     envTagName := envTagName sch;
     flagHelpTagName := flagHelpTagName sch;
     configFileType := x;
     configFilePath := configFilePath sch;
     configFileBaseName := configFileBaseName sch;
     viper := viper sch;
     cmd := cmd sch;
     decoderConfigOptions := decoderConfigOptions sch;
     ignoreUntaggedFields := ignoreUntaggedFields sch |}.

Definition set_configFilePath (x : string) (sch : SnakeCharmer) : SnakeCharmer :=
  {| resultStruct := resultStruct sch;
     fieldTagName := fieldTagName sch;
     envTagName := envTagName sch;
     flagHelpTagName := flagHelpTagName sch;
     configFileType := configFileType sch;
     configFilePath := x;
     configFileBaseName := configFileBaseName sch;
     viper := viper sch;
     cmd := cmd sch;
     decoderConfigOptions := decoderConfigOptions sch;
     ignoreUntaggedFields := ignoreUntaggedFields sch |}.

Definition set_configFileBaseName (x : string) (sch : SnakeCharmer) : SnakeCharmer :=
  {| resultStruct := resultStruct sch;
     fieldTagName := fieldTagName sch;
     envTagName := envTagName sch;
     flagHelpTagName := flagHelpTagName sch;
     configFileType := configFileType sch;
     configFilePath := configFilePath sch;
     configFileBaseName := x;
     viper := viper sch;
     cmd := cmd sch;
     decoderConfigOptions := decoderConfigOptions sch;
     ignoreUntaggedFields := ignoreUntaggedFields sch |}.

Definition set_viper (x : option Viper.Viper) (sch : SnakeCharmer) : SnakeCharmer :=
  {| resultStruct := resultStruct sch;
     fieldTagName := fieldTagName sch;
     envTagName := envTagName sch;
     flagHelpTagName := flagHelpTagName sch;
     configFileType := configFileType sch;
     configFilePath := configFilePath sch;
     configFileBaseName := configFileBaseName sch;
     viper := x;
     cmd := cmd sch;
     decoderConfigOptions := decoderConfigOptions sch;
     ignoreUntaggedFields := ignoreUntaggedFields sch |}.

Definition set_cmd (x : option Cobra.Command) (sch : SnakeCharmer) : SnakeCharmer :=
  {| resultStruct := resultStruct sch;
     fieldTagName := fieldTagName sch;
     envTagName := envTagName sch;
     flagHelpTagName := flagHelpTagName sch;
     configFileType := configFileType sch;
     configFilePath := configFilePath sch;
     configFileBaseName := configFileBaseName sch;
     viper := viper sch;
     cmd := x;
     decoderConfigOptions := decoderConfigOptions sch;
     ignoreUntaggedFields := ignoreUntaggedFields sch |}.

Definition set_decoderConfigOptions (x : list DecoderConfigOption) (sch : SnakeCharmer) : SnakeCharmer :=
  {| resultStruct := resultStruct sch;
     fieldTagName := fieldTagName sch;
     envTagName := envTagName sch;
     flagHelpTagName := flagHelpTagName sch;
     configFileType := configFileType sch;
     configFilePath := configFilePath sch;
     configFileBaseName := configFileBaseName sch;
     viper := viper sch;
     cmd := cmd sch;
     decoderConfigOptions := x;
     ignoreUntaggedFields := ignoreUntaggedFields sch |}.

Definition set_ignoreUntaggedFields (x : bool) (sch : SnakeCharmer) : SnakeCharmer :=
  {| resultStruct := resultStruct sch;
     fieldTagName := fieldTagName sch;
     envTagName := envTagName sch;
     flagHelpTagName := flagHelpTagName sch;
     configFileType := configFileType sch;
     configFilePath := configFilePath sch;
     configFileBaseName := configFileBaseName sch;
     viper := viper sch;
     cmd := cmd sch;
     decoderConfigOptions := decoderConfigOptions sch;
     ignoreUntaggedFields := x |}.

(** The flag set of the command of the engine, empty when there is none. *)
Definition flagsOf (sch : SnakeCharmer) : gmap string Cobra.Flag :=
  match cmd sch with
  | Some c => Cobra.PersistentFlags c
  | None => ∅
  end.

(** A call on [sch.cmd.PersistentFlags()]; [sch.cmd] may be [nil]. *)
Definition onFlags {A} (m : M Cobra.Command A) : M SnakeCharmer A :=
  fun sch =>
    match cmd sch with
    | None => Panics nilDereference
    | Some c =>
        match m c with
        | Returns a c' => Returns a (set_cmd (Some c') sch)
        | Panics p => Panics p
        end
    end.

(** A call on [sch.viper]; [sch.viper] may be [nil]. *)
Definition onViper {A} (f : Viper.Viper → A * Viper.Viper)
    : M SnakeCharmer A :=
  fun sch =>
    match viper sch with
    | None => Panics nilDereference
    | Some v => let r := f v in Returns r.1 (set_viper (Some r.2) sch)
    end.

(** The functional options of the package. *)
Inductive CharmingOption :=
| WithResultStruct (rs : option Value)
| WithFieldTagName (s : string)
| WithEnvTagName (s : string)
| WithFlagHelpTagName (s : string)
| WithConfigFileType (s : string)
| WithConfigFilePath (s : string)
| WithConfigFileBaseName (s : string)
| WithDecoderConfigOption (opt : Viper.DecoderConfig → Viper.DecoderConfig)
| WithIgnoreUntaggedFields (on : bool)
| WithViper (v : option Viper.Viper)
| WithCobraCommand (c : option Cobra.Command).

Section Engine.

(** [fileExtSupported] is declared in a file of the package that is not
    at hand: it tells whether an extension is one of the supported config
    formats. *)
Variable fileExtSupported : string → bool.

(** [opt(sch)]: what applying each option does. *)
Definition applyOption (o : CharmingOption) : M SnakeCharmer error :=
  match o with
  | WithResultStruct rs =>
      match rs with
      | None => panic zeroValueType
      | Some (VPtr (Some v)) =>
          match v with
          | VStruct t _ =>
              if ConvertibleToTime t
              then ret (Some (Sprintf "result struct must be a pointer to a struct. Got <*%s>" [AType v]))
              else exec modify (set_resultStruct rs) in ret None
          | _ =>
              ret (Some (Sprintf "result struct must be a pointer to a struct. Got <*%s>" [AType v]))
          end
      | Some v =>
          ret (Some (Sprintf "result struct must be a pointer to a struct. Got <%s>" [AType v]))
      end
  | WithFieldTagName s =>
      let tag := Strings.TrimSpace s in
      if Strings.isEmpty tag
      then ret (Some (Sprintf "invalid field tag name: %q" [AString s]))
      else exec modify (set_fieldTagName tag) in ret None
  | WithEnvTagName s =>
      let tag := Strings.TrimSpace s in
      if Strings.isEmpty tag
      then ret (Some (Sprintf "invalid envTagName: %q" [AString s]))
      else exec modify (set_envTagName tag) in ret None
  | WithFlagHelpTagName s =>
      let tag := Strings.TrimSpace s in
      if Strings.isEmpty tag
      then ret (Some (Sprintf "invalid flag help tag name: %q" [AString s]))
      else exec modify (set_flagHelpTagName tag) in ret None
  | WithConfigFileType s =>
      let ext := Strings.TrimSpace s in
      if negb (fileExtSupported ext)
      then ret (Some (Sprintf "invalid config file type: %q" [AString s]))
      else exec modify (set_configFileType ext) in ret None
  | WithConfigFilePath s =>
      exec modify (set_configFilePath (Strings.TrimSpace s)) in ret None
  | WithConfigFileBaseName s =>
      let name := Strings.TrimSpace s in
      if Strings.isEmpty name
      then ret (Some (Sprintf "invalid config file base name: %q" [AString s]))
      else exec modify (set_configFileBaseName name) in ret None
  | WithDecoderConfigOption opt =>
      exec modify (fun sch =>
        set_decoderConfigOptions (decoderConfigOptions sch ++ [Given opt])%list sch) in
      ret None
  | WithIgnoreUntaggedFields on =>
      exec modify (set_ignoreUntaggedFields on) in
      exec modify (fun sch =>
        set_decoderConfigOptions
          (decoderConfigOptions sch ++ [IgnoreUntagged on])%list sch) in
      ret None
  | WithViper v => exec modify (set_viper v) in ret None
  | WithCobraCommand c => exec modify (set_cmd c) in ret None
  end.

(** [Set] (the name is taken in Rocq): the options are applied in order,
    up to the first error. *)
Fixpoint Set_ (opts : list CharmingOption) : M SnakeCharmer error :=
  match opts with
  | [] => ret None
  | opt :: rest =>
      run err := applyOption opt in
      match err with
      | Some e => ret (Some e)
      | None => Set_ rest
      end
  end.

(** [NewSnakeCharmer]: the engine is returned with the error, if any. Its
    loop over the options is that of [Set_]. *)
Definition NewSnakeCharmer (opts : list CharmingOption)
    : Run SnakeCharmer error :=
  (run err := Set_ opts in
   match err with
   | Some e => ret (Some e)
   | None =>
       run rs := gets resultStruct in
       match rs with
       | None =>
           ret (Some (Sprintf "result struct <interface{}> is not set" []))
       | Some _ =>
           exec modify (fun sch =>
             match viper sch with
             | None => set_viper (Some Viper.New) sch
             | Some _ => sch
             end) in
           run c := gets cmd in
           match c with
           | None => ret (Some (Sprintf "cmd <*cobra.Command> is not set" []))
           | Some _ => ret None
           end
       end
   end)
    {| resultStruct := None;
       fieldTagName := "mapstructure";
       envTagName := "env";
       flagHelpTagName := "usage";
       configFileType := "yaml";
       configFilePath := "";
       configFileBaseName := "config";
       viper := None;
       cmd := None;
       decoderConfigOptions := [];
       ignoreUntaggedFields := false |}.

End Engine.

(** ** Binding: [applySetting] and [addFlags] *)

(** [applySetting]: adds the flag to the flag set of the command and sets
    the default of the settings store. [readOnly] tells that [rv] was
    obtained from a field that is not exported, for which [rv.Interface()]
    panics. *)
Definition applySetting (rv : Value) (readOnly : bool) (name help : string)
    : M SnakeCharmer error :=
  let register (t : Cobra.FlagType) (value : Value) : M SnakeCharmer error :=
    exec onFlags (Cobra.define t name value help) in
    exec onViper (fun v => (tt, Viper.SetDefault name value v)) in
    ret None in
  match rv with
  | VBool value => register Cobra.BoolFlag (VBool value)
  | VUint _ value => register Cobra.Uint64Flag (VUint Uint64 value)
  | VInt _ value => register Cobra.Int64Flag (VInt Int64 value)
  | VFloat _ value => register Cobra.Float64Flag (VFloat Float64 value)
  | VString value => register Cobra.StringFlag (VString value)
  | VStrings value =>
      if readOnly then panic unexportedInterface else
      if Nat.eqb (length (default [] value)) 0
      then ret (Some (Sprintf "BUG: value of flag %q (%T) is nil or empty"
                        [AString name; AType rv]))
      else register Cobra.StringSliceFlag (VStrings value)
  | VSliceOf _ =>
      if readOnly then panic unexportedInterface else
      ret (Some (Sprintf "BUG: invalid type: %T for flag %q"
                   [AType rv; AString name]))
  | VStringMap value =>
      if readOnly then panic unexportedInterface else
      match value with
      | None =>
          ret (Some (Sprintf "BUG: value of flag %q (%T) is nil or empty"
                       [AString name; AType rv]))
      | Some _ => register Cobra.StringToStringFlag (VStringMap value)
      end
  | VMapOf _ =>
      if readOnly then panic unexportedInterface else
      ret (Some (Sprintf "BUG: invalid type: %T for flag %q"
                   [AType rv; AString name]))
  | _ => ret (Some (Sprintf "BUG: unsupported type: %q" [AKind (kind rv)]))
  end.

(** [prefix + "." + key] when the prefix is not empty. *)
Definition withPrefix (prefix key : string) : string :=
  if Strings.isEmpty prefix then key else prefix ++ "." ++ key.

(** [fieldValue.Elem()] for a pointer or an interface that is not nil; any
    other value is kept. *)
Definition indirect (fieldValue : Value) : Value :=
  match fieldValue with
  | VPtr (Some x) | VInterface (Some x) => x
  | _ => fieldValue
  end.

(** The body of the loop of [addFlags] for one field; [addFlags] is the
    function itself, for the nested struct. *)
Definition bindField (addFlags : Value → string → M SnakeCharmer unit)
    (prefix : string) (structField : StructField) (fieldValue : Value)
    : M SnakeCharmer unit :=
  if isNilRef fieldValue
  then panic (Sprintf "BUG: got nil for field: %s" [AString (Name structField)])
  else
    let fieldValue := indirect fieldValue in
    run sch := gets id in
    let fieldTag := Get (Tag structField) (fieldTagName sch) in
    if Strings.isEmpty fieldTag then
      if ignoreUntaggedFields sch then ret tt
      else panic (Sprintf "BUG: got untagged field: %s"
                    [AString (Name structField)])
    else
      let key := withPrefix prefix (Strings.firstSegment fieldTag) in
      match fieldValue with
      | VStruct _ _ =>
          if Strings.IsExported (Name structField)
          then addFlags fieldValue key
          else panic unexportedInterface
      | _ =>
          let help := Get (Tag structField) (flagHelpTagName sch) in
          if Strings.isEmpty help
          then panic (Sprintf "BUG: %s tag is not specified for field: %q"
                        [AString (flagHelpTagName sch);
                         AString (Name structField)])
          else
            run err := applySetting fieldValue
                         (negb (Strings.IsExported (Name structField)))
                         key help in
            match err with
            | Some e => panic e
            | None =>
                run flag := onFlags (fun c => Returns (Cobra.Lookup c key) c) in
                run err := onViper (Viper.BindPFlag key flag) in
                match err with
                | Some e => panic e
                | None =>
                    let env := Get (Tag structField) (envTagName sch) in
                    if Strings.isEmpty env then ret tt
                    else
                      run err := onViper (Viper.BindEnv key env) in
                      match err with
                      | Some e => panic e
                      | None => ret tt
                      end
                end
            end
      end.

(** The loop over the fields, in the order of their declaration. *)
Definition eachField (body : StructField → Value → M SnakeCharmer unit)
    : list (StructField * Value) → M SnakeCharmer unit :=
  fix loop fields :=
    match fields with
    | [] => ret tt
    | (structField, fieldValue) :: rest =>
        exec body structField fieldValue in loop rest
    end.

(** [addFlags], on [reflect.ValueOf(input)] for an [input] that is not the
    nil interface. A Go value that points back to itself has no counterpart
    among the values here, which are finite trees. *)
Fixpoint addFlags (input : Value) (prefix : string) {struct input}
    : M SnakeCharmer unit :=
  match input with
  | VPtr None | VInterface None => panic (Sprintf "BUG: got nil input" [])
  | VPtr (Some v) | VInterface (Some v) =>
      match v with
      | VStruct _ fields => eachField (bindField addFlags prefix) fields
      | _ => panic (Sprintf "BUG: invalid input type: %q" [AKind (kind v)])
      end
  | VStruct _ fields => eachField (bindField addFlags prefix) fields
  | v => panic (Sprintf "BUG: invalid input type: %q" [AKind (kind v)])
  end.

(** [AddFlags]: [addFlags] on the result struct, with no prefix. For the nil
    interface [reflect.ValueOf] gives a value of kind [Invalid]. *)
Definition AddFlags : M SnakeCharmer unit :=
  run rs := gets resultStruct in
  match rs with
  | None => panic (Sprintf "BUG: invalid input type: %q" [AKind Invalid])
  | Some input => addFlags input ""
  end.

(** ** Resolution: the config file and [UnmarshalExact] *)

Section Resolution.

Variable fileExtSupported : string → bool.
Variable w : Viper.World.

(** [findConfigFile] *)
Definition findConfigFile : M SnakeCharmer (bool * error) :=
  run sch := gets id in
  if Strings.isEmpty (configFilePath sch)
  then ret (false, Some (Sprintf "config file path is an empty string" []))
  else
    match Viper.Stat w (configFilePath sch) with
    | Viper.FileInfo isDir =>
        exec
          (if isDir then
             exec onViper (fun v => (tt, Viper.AddConfigPath (configFilePath sch) v)) in
             onViper (fun v => (tt, Viper.SetConfigName (configFileBaseName sch) v))
           else
             let fext := Strings.trimDot (Strings.Ext (configFilePath sch)) in
             if Strings.isEmpty fext then
               exec onViper (fun v => (tt, Viper.SetConfigType (configFileType sch) v)) in
               onViper (fun v => (tt, Viper.SetConfigFile (configFilePath sch) v))
             else if fileExtSupported fext then
               onViper (fun v => (tt, Viper.SetConfigFile (configFilePath sch) v))
             else
               exec onViper (fun v => (tt, Viper.SetConfigType (configFileType sch) v)) in
               onViper (fun v => (tt, Viper.SetConfigFile (configFilePath sch) v))) in
        ret (true, None)
    | Viper.StatError true _ =>
        ret (false, Some (Sprintf "no such file or directory: %q"
                            [AString (configFilePath sch)]))
    | Viper.StatError false err =>
        ret (false, Some (Sprintf "schrodinger: %q may or may not exist: %s"
                            [AString (configFilePath sch); AError err]))
    end.

(** [mergeInConfigFile] *)
Definition mergeInConfigFile : M SnakeCharmer error :=
  run sch := gets id in
  if Strings.isEmpty (configFilePath sch)
  then ret (Some (Sprintf "config file path is an empty string" []))
  else
    run r := findConfigFile in
    match r with
    | (_, Some err) =>
        ret (Some (Sprintf "while finding config %q: %s"
                     [AString (configFilePath sch); AError err]))
    | (false, None) => ret None
    | (true, None) =>
        run err := onViper (Viper.ReadInConfig w) in
        match err with
        | Some e =>
            ret (Some (Sprintf "while reading config %q: %s"
                         [AString (configFilePath sch); AError e]))
        | None => ret None
        end
    end.

(** What an element of [decoderConfigOptions] does to the configuration of
    the decoder when the decoder runs it. *)
Definition decoderOption (sch : SnakeCharmer) (o : DecoderConfigOption)
    : Viper.DecoderConfig → Viper.DecoderConfig :=
  match o with
  | Given opt => opt
  | IgnoreUntagged on => Viper.setIgnoreUntaggedFields on
  | TagNameOfEngine => Viper.setTagName (fieldTagName sch)
  end.

(** [UnmarshalExact] *)
Definition UnmarshalExact : M SnakeCharmer error :=
  run sch := gets id in
  run err := (if Strings.isEmpty (configFilePath sch) then ret None
              else mergeInConfigFile) in
  match err with
  | Some e => ret (Some e)
  | None =>
      exec (if String.eqb (fieldTagName sch) "mapstructure" then ret tt
            else modify (fun sch =>
                   set_decoderConfigOptions
                     (decoderConfigOptions sch ++ [TagNameOfEngine])%list sch)) in
      run sch := gets id in
      run err := onViper (fun v =>
                   (Viper.UnmarshalExact w (flagsOf sch) v (resultStruct sch)
                      (map (decoderOption sch) (decoderConfigOptions sch)),
                    v)) in
      match err with
      | Some e =>
          ret (Some (Sprintf "while unmarshalling config, flags, and env vars: %s"
                       [AError e]))
      | None => ret None
      end
  end.

End Resolution.

(** ** What binding is expected to produce

    The definitions of this part follow the description of the walk, not
    the code: the leaves of the schema with their paths, the dotted key of a
    path, and the binding of one leaf. The theorems compare [addFlags] with
    them. *)

(** A leaf field: the leaf keys of the fields that lead to it, from the
    root, its own last; the field; and its value, one pointer or interface
    removed. *)
Record Leaf := {
  leafPath : list string;
  leafField : StructField;
  leafValue : Value;
}.

Definition under (key : string) (l : Leaf) : Leaf :=
  {| leafPath := key :: leafPath l; leafField := leafField l;
     leafValue := leafValue l |}.

(** The leaves of a struct (or of a pointer to one), in declaration order.
    A field without the field-key tag has none; a struct-typed field has
    those of its fields and is not one itself. *)
Definition fieldLeaves (leaves : Value → list Leaf) (fieldTagName : string)
    (f : StructField * Value) : list Leaf :=
  let fieldTag := Get (Tag f.1) fieldTagName in
  if Strings.isEmpty fieldTag then []
  else
    let key := Strings.firstSegment fieldTag in
    let x := indirect f.2 in
    match x with
    | VStruct _ _ => map (under key) (leaves x)
    | _ => [{| leafPath := [key]; leafField := f.1; leafValue := x |}]
    end.

Fixpoint leaves (fieldTagName : string) (input : Value) {struct input}
    : list Leaf :=
  match input with
  | VStruct _ fields =>
      flat_map (fieldLeaves (leaves fieldTagName) fieldTagName) fields
  | VPtr (Some v) | VInterface (Some v) =>
      match v with
      | VStruct _ fields =>
          flat_map (fieldLeaves (leaves fieldTagName) fieldTagName) fields
      | _ => []
      end
  | _ => []
  end.

(** The dotted key of a path below a prefix: each key is joined to what
    precedes it with a dot, unless nothing precedes it. *)
Definition dotted (prefix : string) (path : list string) : string :=
  foldl withPrefix prefix path.

(** The option a leaf value gives: its type and its default. *)
Definition flagOf (rv : Value) : option (Cobra.FlagType * Value) :=
  match rv with
  | VBool b => Some (Cobra.BoolFlag, VBool b)
  | VUint _ n => Some (Cobra.Uint64Flag, VUint Uint64 n)
  | VInt _ n => Some (Cobra.Int64Flag, VInt Int64 n)
  | VFloat _ x => Some (Cobra.Float64Flag, VFloat Float64 x)
  | VString s => Some (Cobra.StringFlag, VString s)
  | VStrings (Some (x :: xs)) => Some (Cobra.StringSliceFlag, rv)
  | VStringMap (Some m) => Some (Cobra.StringToStringFlag, rv)
  | _ => None
  end.

(** The default a leaf registers: that of its option, and the value
    itself when it gives none. *)
Definition defaultOf (rv : Value) : Value :=
  match flagOf rv with
  | Some (_, d) => d
  | None => rv
  end.

Definition leafKey (prefix : string) (l : Leaf) : string :=
  dotted prefix (leafPath l).

Definition leafEnv (sch : SnakeCharmer) (l : Leaf) : string :=
  Get (Tag (leafField l)) (envTagName sch).

(** The binding of one leaf: one option under the key, with the default
    and the help text; the same default in the settings store; the key
    bound to the option and, when the field names one, to the environment
    variable. *)
Definition bindLeaf (prefix : string) (sch : SnakeCharmer) (l : Leaf)
    : SnakeCharmer :=
  match viper sch, cmd sch, flagOf (leafValue l) with
  | Some v, Some c, Some (t, d) =>
      let key := leafKey prefix l in
      let help := Get (Tag (leafField l)) (flagHelpTagName sch) in
      let c' := Cobra.withFlag key (Cobra.newFlag t d help) c in
      let v1 := (Viper.BindPFlag key (Some key) (Viper.SetDefault key d v)).2 in
      let v2 := if Strings.isEmpty (leafEnv sch l) then v1
                else (Viper.BindEnv key (leafEnv sch l) v1).2 in
      set_viper (Some v2) (set_cmd (Some c') sch)
  | _, _, _ => sch
  end.

(** The leaves can be bound one after the other: each gives an option,
    both stores are there, and the name of the option is free when its
    turn comes. *)
Fixpoint bindable (prefix : string) (sch : SnakeCharmer) (ls : list Leaf)
    : Prop :=
  match ls with
  | [] => True
  | l :: rest =>
      is_Some (viper sch) ∧ is_Some (cmd sch)
      ∧ is_Some (flagOf (leafValue l))
      ∧ flagsOf sch !! leafKey prefix l = None
      ∧ bindable prefix (bindLeaf prefix sch l) rest
  end.

(** The value the command line gives a flag: that of its last occurrence. *)
Fixpoint argValue (args : list (string * Value)) (name : string)
    : option Value :=
  match args with
  | [] => None
  | (n, x) :: rest =>
      match argValue rest name with
      | Some y => Some y
      | None => if String.eqb n name then Some x else None
      end
  end.

(** The order of precedence: the option the command line set, else the
    environment variable, else the config file, else the default. *)
Definition precedence (flag : option Value) (envValue : option string)
    (file : option Value) (dflt : Value) : Value :=
  match flag with
  | Some x => x
  | None =>
      match envValue with
      | Some s => VString s
      | None =>
          match file with
          | Some x => x
          | None => dflt
          end
      end
  end.

(** The value of the environment variable a leaf is bound to, if it is
    bound to one. *)
Definition envValue (w : Viper.World) (name : string) : option string :=
  if Strings.isEmpty name then None else Viper.getEnv w name.

(** What the two stores hold for a key: the option of that name, the
    default, the option the key is bound to, and the environment variables
    it is bound to. *)
Definition bindingsAt (key : string) (sch : SnakeCharmer)
    : option Cobra.Flag * option Value * option string * list string :=
  (flagsOf sch !! key,
   viper sch ≫= (fun v => Viper.defaults v !! key),
   viper sch ≫= (fun v => Viper.pflags v !! key),
   from_option (fun v => default [] (Viper.env v !! key)) [] (viper sch)).

(** What the settings store holds of the config file: the config read and
    the four settings of the lookup. *)
Definition fileSettings (sch : SnakeCharmer)
    : option (gmap string Value * string * string * string * list string) :=
  match viper sch with
  | Some v => Some (Viper.config v, Viper.configFile v, Viper.configType v,
                    Viper.configName v, Viper.configPaths v)
  | None => None
  end.

(** The config the settings store holds. *)
Definition configOf (sch : SnakeCharmer) : gmap string Value :=
  match viper sch with
  | Some v => Viper.config v
  | None => ∅
  end.

(** What [findConfigFile] tells the settings store about a path that
    exists: for a directory, the directory and the base name; for a file
    whose extension is supported, the exact file; for another file, the
    configured type and the exact file. *)
Definition locate (fileExtSupported : string → bool) (isDir : bool)
    (sch : SnakeCharmer) (v : Viper.Viper) : Viper.Viper :=
  if isDir then
    Viper.SetConfigName (configFileBaseName sch)
      (Viper.AddConfigPath (configFilePath sch) v)
  else
    let fext := Strings.trimDot (Strings.Ext (configFilePath sch)) in
    if negb (Strings.isEmpty fext) && fileExtSupported fext
    then Viper.SetConfigFile (configFilePath sch) v
    else Viper.SetConfigFile (configFilePath sch)
           (Viper.SetConfigType (configFileType sch) v).

(** The error of [findConfigFile] for a path that does not exist, and for
    one of which [os.Stat] cannot tell. *)
Definition notFound (path : string) : Msg :=
  Sprintf "no such file or directory: %q" [AString path].

Definition indeterminate (path : string) (err : Msg) : Msg :=
  Sprintf "schrodinger: %q may or may not exist: %s" [AString path; AError err].

Definition statFailure (path : string) (notExist : bool) (err : Msg) : Msg :=
  if notExist then notFound path else indeterminate path err.

(** The error [mergeInConfigFile] makes of that of [findConfigFile]. *)
Definition whileFinding (path : string) (err : Msg) : Msg :=
  Sprintf "while finding config %q: %s" [AString path; AError err].

(** The error of [mergeInConfigFile] when the config cannot be read. *)
Definition whileReading (path : string) (err : Msg) : Msg :=
  Sprintf "while reading config %q: %s" [AString path; AError err].

(** What [mergeInConfigFile] does, by what [os.Stat] and the reading of the
    config answer. *)
Definition merged (fileExtSupported : string → bool) (w : Viper.World)
    (sch : SnakeCharmer) : Run SnakeCharmer error :=
  match Viper.Stat w (configFilePath sch) with
  | Viper.StatError notExist err =>
      Returns (Some (whileFinding (configFilePath sch)
                       (statFailure (configFilePath sch) notExist err))) sch
  | Viper.FileInfo isDir =>
      match viper sch with
      | None => Panics nilDereference
      | Some v =>
          let v1 := locate fileExtSupported isDir sch v in
          match Viper.readConfig w (Viper.configFile v1) (Viper.configType v1)
                  (Viper.configName v1) (Viper.configPaths v1) with
          | Viper.ReadOk c =>
              Returns None (set_viper (Some (Viper.setConfig c v1)) sch)
          | Viper.ReadError e =>
              Returns (Some (whileReading (configFilePath sch) e))
                (set_viper (Some v1) sch)
          end
      end
  end.

(** Two states of the settings store with the same defaults and the same
    bindings. *)
Definition sameLayers (v v' : Viper.Viper) : Prop :=
  Viper.defaults v' = Viper.defaults v
  ∧ Viper.pflags v' = Viper.pflags v
  ∧ Viper.env v' = Viper.env v.

(** The part of [UnmarshalExact] that comes before the decoding. *)
Definition beforeDecoding (fileExtSupported : string → bool)
    (w : Viper.World) (sch : SnakeCharmer) : Run SnakeCharmer error :=
  if Strings.isEmpty (configFilePath sch) then Returns None sch
  else merged fileExtSupported w sch.

(** The leaves [AddFlags] binds: those of the result struct. *)
Definition boundLeaves (sch : SnakeCharmer) : list Leaf :=
  match resultStruct sch with
  | Some input => leaves (fieldTagName sch) input
  | None => []
  end.

(** The settings [UnmarshalExact] hands to the decoder, which copies them
    into the result struct. *)
Definition decoded (w : Viper.World) (sch : SnakeCharmer)
    : gmap string Value :=
  match viper sch with
  | Some v => Viper.AllSettings w (flagsOf sch) v
  | None => ∅
  end.

(** The configuration the decoder runs with. *)
Definition decoderConfig (sch : SnakeCharmer) : Viper.DecoderConfig :=
  Viper.setErrorUnused true
    (foldl (fun dc o => o dc) Viper.defaultDecoderConfig
       (map (decoderOption sch) (decoderConfigOptions sch))).

(** The invariant of the result struct: a pointer, not nil, to a struct
    whose type is not convertible to [time.Time]. *)
Definition validResultStruct (rs : option Value) : Prop :=
  ∃ t fields, rs = Some (VPtr (Some (VStruct t fields)))
              ∧ ConvertibleToTime t = false.

(** The error [UnmarshalExact] makes of that of the decoder. *)
Definition whileUnmarshalling (err : Msg) : Msg :=
  Sprintf "while unmarshalling config, flags, and env vars: %s" [AError err].

(** The engine once [UnmarshalExact] has added its decoder option. *)
Definition withTagNameOption (sch : SnakeCharmer) : SnakeCharmer :=
  if String.eqb (fieldTagName sch) "mapstructure" then sch
  else set_decoderConfigOptions
         (decoderConfigOptions sch ++ [TagNameOfEngine])%list sch.

(** What [UnmarshalExact] does after the config file: it adds its decoder
    option and has all settings decoded into the result struct. *)
Definition unmarshalled (w : Viper.World) (sch : SnakeCharmer)
    : Run SnakeCharmer error :=
  let s := withTagNameOption sch in
  match viper s with
  | None => Panics nilDereference
  | Some v =>
      Returns
        (whileUnmarshalling
           <$> Viper.decode w (decoderConfig s) (decoded w s) (resultStruct s))
        (set_viper (Some v) s)
  end.


(** An option other than [WithResultStruct]. *)
Definition keepsResultStruct (o : CharmingOption) : bool :=
  match o with
  | WithResultStruct _ => false
  | _ => true
  end.

(** ** The struct of the tests of the package *)

Module Tests.

(** The extensions viper supports ([viper.SupportedExts]). *)
Definition SupportedExts : list string :=
  ["json"; "toml"; "yaml"; "yml"; "properties"; "props"; "prop"; "hcl";
   "tfvars"; "dotenv"; "env"; "ini"].

Definition fileExtSupported (ext : string) : bool :=
  bool_decide (ext ∈ SupportedExts).

Definition field (name key envName usage : string) : StructField :=
  {| Name := name;
     Tag := [("snakecharmer", key ++ ",omitempty")]
            ++ (if Strings.isEmpty envName then [] else [("env", envName)])
            ++ (if Strings.isEmpty usage then [] else [("usage", usage)]) |}.

Definition ignoreMe : StructField * Value :=
  ({| Name := "ignoreMe"; Tag := [] |}, VBool true).

Definition ptr (v : Value) : Value := VPtr (Some v).

Definition structType (name : string) : StructType :=
  {| TypeName := name; ConvertibleToTime := false |}.

Definition defaultLogDestinations : gmap string string :=
  <["error" := "/var/log/error.log"]> (<["debug" := "/var/log/debug.log"]> ∅).

(** [initTestStruct()] *)
Definition testLogLimitsConfig : Value :=
  VStruct (structType "snakecharmer.testLogLimitsConfig")
    [(field "WarnsLimit" "warn" "TEST_LOG_LIMIT_WARN" "Limit warn messages per sec",
      ptr (VUint Uint 100));
     (field "ErrorsLimit" "error" "TEST_LOG_LIMIT_ERROR" "Limit error messages per sec",
      ptr (VUint Uint 100));
     ignoreMe].

Definition testLoggingConfig : Value :=
  VStruct (structType "snakecharmer.testLoggingConfig")
    [(field "Level" "level" "TEST_LOG_LEVEL" "Log level", ptr (VString "info"));
     (field "LogJSON" "json" "TEST_LOG_JSON" "Log in JSON format",
      ptr (VBool false));
     (field "LogLimits" "limit" "" "", ptr testLogLimitsConfig);
     (field "LogDestinations" "dst" "" "Log to multiple destinations",
      ptr (VStringMap (Some defaultLogDestinations)));
     ignoreMe].

Definition testStruct : Value :=
  VStruct (structType "snakecharmer.testStruct")
    [(field "Workers" "workers" "TEST_WORKERS" "Number of workers to run",
      ptr (VInt Int 128));
     (field "MaxBurst" "max-burst" "TEST_MAX_BURST" "Max burst allowed, e.g 1.25",
      ptr (VFloat Float64 4608308318706860032));
     (field "BindAddr" "bind-addr" "TEST_BIND_ADDR" "Addr to bind",
      ptr (VString "0.0.0.0"));
     (field "UpstreamURls" "upstreams" "" "List of upstream urls",
      ptr (VStrings (Some ["http://www.foo.com/"; "http://www.bar.com/"])));
     (field "Logging" "log" "" "", ptr testLoggingConfig);
     ignoreMe].

(** The options of [Test_WithoutConfigFile]. *)
Definition options : list CharmingOption :=
  [WithResultStruct (Some (ptr testStruct));
   WithFieldTagName "snakecharmer";
   WithViper (Some Viper.New);
   WithCobraCommand (Some (Cobra.New "test"));
   WithIgnoreUntaggedFields true].

(** The engine they give, for a result struct and a config file path. *)
Definition engine (result : Value) (path : string) : SnakeCharmer :=
  {| resultStruct := Some (ptr result);
     fieldTagName := "snakecharmer";
     envTagName := "env";
     flagHelpTagName := "usage";
     configFileType := "yaml";
     configFilePath := path;
     configFileBaseName := "config";
     viper := Some Viper.New;
     cmd := Some (Cobra.New "test");
     decoderConfigOptions := [IgnoreUntagged true];
     ignoreUntaggedFields := true |}.

(** The state a call leaves, the state it started from if it panics. *)
Definition after {A} (m : M SnakeCharmer A) (sch : SnakeCharmer)
    : SnakeCharmer :=
  match m sch with
  | Returns _ s => s
  | Panics _ => sch
  end.

(** [expectedFlagNames] *)
Definition expectedFlagNames : list string :=
  ["workers"; "max-burst"; "bind-addr"; "upstreams"; "log.level"; "log.json";
   "log.dst"; "log.limit.warn"; "log.limit.error"].

(** The config file of the tests, as far as the examples go. *)
Definition fileConfig : gmap string Value :=
  list_to_map
    [("workers", VInt Int 256); ("max-burst", VFloat Float64 4609434218613702656);
     ("bind-addr", VString "127.0.0.255"); ("log.limit.warn", VInt Int 20)].

Definition isConfigFile (path : string) : bool :=
  bool_decide (path ∈ ["./test-config.json"; "./test.conf"; "./test-config"]).

(** A world for the examples: the three config files of the tests in the
    working directory, a path that cannot be examined, two variables set,
    and a decoder that only refuses the keys the struct has no field for. *)
Definition world : Viper.World :=
  {| Viper.Stat := fun path =>
       if isConfigFile path then Viper.FileInfo false
       else if String.eqb path "./" then Viper.FileInfo true
       else if String.eqb path "/root/config.yaml"
       then Viper.StatError false (Sprintf "stat %s: permission denied" [AString path])
       else Viper.StatError true (Sprintf "stat %s: no such file or directory" [AString path]);
     Viper.LookupEnv := fun name =>
       if String.eqb name "TEST_WORKERS" then Some "512"
       else if String.eqb name "WORKERS" then Some "512"
       else if String.eqb name "TEST_LOG_LEVEL" then Some "debug"
       else None;
     Viper.readConfig := fun file type name paths =>
       if isConfigFile file then Viper.ReadOk fileConfig
       else if Strings.isEmpty file && String.eqb name "test-config"
               && bool_decide ("./" ∈ paths)
       then Viper.ReadOk fileConfig
       else Viper.ReadError (Sprintf "Config File %q Not Found in %q"
                               [AString name; AString file]);
     Viper.decode := fun dc settings target =>
       match filter (fun key => key ∉ expectedFlagNames)
               (elements (dom settings)) with
       | [] => None
       | key :: _ =>
           if Viper.ErrorUnused dc
           then Some (Sprintf "'' has invalid keys: %s" [AString key])
           else None
       end |}.

(** The same world with no variable set. *)
Definition quietWorld : Viper.World :=
  {| Viper.Stat := Viper.Stat world;
     Viper.LookupEnv := fun _ => None;
     Viper.readConfig := Viper.readConfig world;
     Viper.decode := Viper.decode world |}.

(** The struct of the scenario of the precedence: one field, [Workers],
    128 by default, bound to the variable [WORKERS]. *)
Definition workersConfig : Value :=
  VStruct (structType "main.Config")
    [({| Name := "Workers";
         Tag := [("snakecharmer", "workers"); ("env", "WORKERS");
                 ("usage", "Number of workers to run")] |},
      VInt Int 128)].

(** Its only leaf. *)
Definition workersLeaf : Leaf :=
  {| leafPath := ["workers"];
     leafField := {| Name := "Workers";
                     Tag := [("snakecharmer", "workers"); ("env", "WORKERS");
                             ("usage", "Number of workers to run")] |};
     leafValue := VInt Int 128 |}.

(** The engine for this struct once the flags are added and the command
    line has set the flags [args]. *)
Definition parsed (args : list (string * Value)) (path : string)
    : SnakeCharmer :=
  let sch := after AddFlags (engine workersConfig path) in
  set_cmd (Cobra.setFlags args <$> cmd sch) sch.

(** A struct with a logger that is not set, and has no tag. *)
Definition withLogger : Value :=
  VStruct (structType "main.Service")
    [({| Name := "Workers";
         Tag := [("snakecharmer", "workers"); ("env", "WORKERS");
                 ("usage", "Number of workers to run")] |},
      VInt Int 128);
     ({| Name := "logger"; Tag := [] |}, VPtr None)].

(** A struct whose map of labels is empty, not nil. *)
Definition withLabels : Value :=
  VStruct (structType "main.Labelled")
    [({| Name := "Labels";
         Tag := [("snakecharmer", "labels"); ("usage", "Labels to attach")] |},
      VStringMap (Some ∅))].

End Tests.

(** ** Further properties: definitions *)

(** An option other than [WithCobraCommand]. *)
Definition keepsCommand (o : CharmingOption) : bool :=
  match o with
  | WithCobraCommand _ => false
  | _ => true
  end.

(** An option other than [WithDecoderConfigOption]. *)
Definition keepsDecoder (o : CharmingOption) : bool :=
  match o with
  | WithDecoderConfigOption _ => false
  | _ => true
  end.

(** A name as the options store it: not empty, and with no white space
    at either end. *)
Definition trimmed (s : string) : Prop :=
  s ≠ "" ∧ Strings.TrimSpace s = s.

(** The names and the config file type of an engine are well formed. *)
Definition wellNamed (fileExtSupported : string → bool) (sch : SnakeCharmer)
    : Prop :=
  trimmed (fieldTagName sch)
  ∧ trimmed (envTagName sch)
  ∧ trimmed (flagHelpTagName sch)
  ∧ trimmed (configFileBaseName sch)
  ∧ (configFileType sch = "yaml" ∨ fileExtSupported (configFileType sch) = true)
  ∧ Strings.TrimSpace (configFilePath sch) = configFilePath sch.

(** The three errors of [applySetting]. *)
Definition unsupportedType (rv : Value) : Msg :=
  Sprintf "BUG: unsupported type: %q" [AKind (kind rv)].

Definition invalidType (rv : Value) (name : string) : Msg :=
  Sprintf "BUG: invalid type: %T for flag %q" [AType rv; AString name].

Definition nilOrEmpty (rv : Value) (name : string) : Msg :=
  Sprintf "BUG: value of flag %q (%T) is nil or empty" [AString name; AType rv].

(** The values [applySetting] reads through [rv.Interface()]: the slices
    and the maps. *)
Definition needsInterface (rv : Value) : bool :=
  match rv with
  | VStrings _ | VSliceOf _ | VStringMap _ | VMapOf _ => true
  | _ => false
  end.

(** What the decoder options of the package alone make of the decoder's
    handling of untagged fields: the last [IgnoreUntagged] decides. *)
Definition lastIgnoreUntagged (opts : list DecoderConfigOption) : bool :=
  foldl (fun b o => match o with IgnoreUntagged on => on | _ => b end)
    false opts.

Definition isIgnoreUntagged (o : DecoderConfigOption) : bool :=
  match o with IgnoreUntagged _ => true | _ => false end.

(** Two worlds with the same environment and the same decoder. *)
Definition sameProcess (w w' : Viper.World) : Prop :=
  Viper.LookupEnv w = Viper.LookupEnv w' ∧ Viper.decode w = Viper.decode w'.

(** No comma in a string. *)
Fixpoint noComma (s : string) : bool :=
  match s with
  | EmptyString => true
  | String.String c rest => negb (Ascii.eqb c ",") && noComma rest
  end.

(** The error a call returned, if it returned. *)
Definition errorOf {S} (r : Run S error) : error :=
  match r with
  | Returns e _ => e
  | Panics _ => None
  end.

(** The state a run left, [sch] if it panicked. *)
Definition stateOf {S A} (r : Run S A) (sch : S) : S :=
  match r with
  | Returns _ s => s
  | Panics _ => sch
  end.


Definition IgnoreUntaggedFields (sch : SnakeCharmer) : bool :=
  ignoreUntaggedFields sch.

(** * Proofs *)

(** ** Running the monad *)

Ltac unfold_run :=
  unfold bind, ret, panic, gets, modify, onFlags, onViper in *; simpl in *.

(** Splits the outcome of the first call whose result is matched on. *)
Ltac split_run :=
  match goal with
  | H : context [match ?m with Returns _ _ => _ | Panics _ => _ end] |- _ =>
      let E := fresh "E" in destruct m eqn:E; try discriminate
  | H : context [match ?o with Some _ => _ | None => _ end] |- _ =>
      let E := fresh "E" in destruct o eqn:E; try discriminate
  | H : context [if ?b then _ else _] |- _ =>
      let E := fresh "E" in destruct b eqn:E; try discriminate
  end.

(** ** Induction on values, through the fields of structs *)

Section ValueInduction.

Variable P : Value → Prop.
Hypothesis Hstruct :
  ∀ t fields, Forall (fun f => P f.2) fields → P (VStruct t fields).
Hypothesis Hptr : ∀ o, from_option P True o → P (VPtr o).
Hypothesis Hinterface : ∀ o, from_option P True o → P (VInterface o).
Hypothesis Hother :
  ∀ v, match v with
       | VStruct _ _ | VPtr _ | VInterface _ => False
       | _ => True
       end → P v.

Lemma Value_nested_ind : ∀ v, P v.
Proof using Hstruct Hptr Hinterface Hother.
  fix IH 1. intros v. destruct v as [| | | | | | | | | t fields | o | o |];
    try (apply Hother; exact I).
  - apply Hstruct. induction fields as [|[sf fv] rest IHrest].
    + constructor.
    + constructor; [apply IH | exact IHrest].
  - apply Hptr. destruct o as [x|]; simpl; [apply IH | exact I].
  - apply Hinterface. destruct o as [x|]; simpl; [apply IH | exact I].
Qed.

End ValueInduction.

(** ** The fields binding leaves untouched *)

Lemma isEmpty_true s : Strings.isEmpty s = true ↔ s = "".
Proof. destruct s; simpl; split; congruence. Qed.

Lemma isEmpty_false s : Strings.isEmpty s = false ↔ s ≠ "".
Proof. destruct s; simpl; split; congruence. Qed.

(** ** [applySetting] *)

(** When [applySetting] returns no error, the value gives an option, both
    stores are there, the name was free, and the option and the default
    are registered. *)
Lemma applySetting_ok rv readOnly name help sch sch' :
  applySetting rv readOnly name help sch = Returns None sch' →
  ∃ t d v c,
    flagOf rv = Some (t, d) ∧ viper sch = Some v ∧ cmd sch = Some c
    ∧ Cobra.PersistentFlags c !! name = None
    ∧ sch' = set_viper (Some (Viper.SetDefault name d v))
               (set_cmd (Some (Cobra.withFlag name (Cobra.newFlag t d help) c)) sch).
Proof.
  intros H.
  assert (Hreg : ∀ t d,
    (bind (onFlags (Cobra.define t name d help))
       (fun _ => bind (onViper (fun v => (tt, Viper.SetDefault name d v)))
                   (fun _ => ret (None : error)))) sch = Returns None sch' →
    ∃ v c, viper sch = Some v ∧ cmd sch = Some c
      ∧ Cobra.PersistentFlags c !! name = None
      ∧ sch' = set_viper (Some (Viper.SetDefault name d v))
                 (set_cmd (Some (Cobra.withFlag name (Cobra.newFlag t d help) c)) sch)).
  { clear H. intros t d H. unfold_run. unfold Cobra.define in H.
    destruct (cmd sch) as [c|] eqn:Ec; [|discriminate].
    destruct (Cobra.PersistentFlags c !! name) eqn:El; [discriminate|].
    simpl in H. destruct (viper sch) as [v|] eqn:Ev; [|discriminate].
    simpl in H. injection H as <-. exists v, c. done. }
  destruct rv as [b|k n|k n|k x|s|xs|ty|m|ty|t fs|o|o|k]; simpl in H;
    try (apply Hreg in H; destruct H as (v & c & ?); eauto 10; fail);
    unfold_run; try discriminate.
  - destruct readOnly; [discriminate|].
    destruct xs as [[|x xs]|]; simpl in H; try discriminate.
    apply Hreg in H. destruct H as (v & c & ?). eauto 10.
  - destruct readOnly; discriminate.
  - destruct readOnly; [discriminate|].
    destruct m as [m|]; [|discriminate].
    apply Hreg in H. destruct H as (v & c & ?). eauto 10.
  - destruct readOnly; discriminate.
Qed.

(** ** Binding one leaf after the other *)

(** What the walk does: it binds the leaves in order, and they can be. *)
Definition binds (prefix : string) (ls : list Leaf) (sch sch' : SnakeCharmer)
    : Prop :=
  sch' = foldl (bindLeaf prefix) sch ls ∧ bindable prefix sch ls.

(** Binding changes the two stores and nothing else. *)
Definition sameSettings (sch sch' : SnakeCharmer) : Prop :=
  resultStruct sch' = resultStruct sch
  ∧ fieldTagName sch' = fieldTagName sch
  ∧ envTagName sch' = envTagName sch
  ∧ flagHelpTagName sch' = flagHelpTagName sch
  ∧ configFileType sch' = configFileType sch
  ∧ configFilePath sch' = configFilePath sch
  ∧ configFileBaseName sch' = configFileBaseName sch
  ∧ decoderConfigOptions sch' = decoderConfigOptions sch
  ∧ ignoreUntaggedFields sch' = ignoreUntaggedFields sch.

Lemma sameSettings_refl sch : sameSettings sch sch.
Proof. by repeat split. Qed.

Lemma sameSettings_trans a b c :
  sameSettings a b → sameSettings b c → sameSettings a c.
Proof.
  unfold sameSettings. intros H1 H2.
  destruct_and!. repeat split; congruence.
Qed.

Lemma bindLeaf_sameSettings prefix sch l :
  sameSettings sch (bindLeaf prefix sch l).
Proof.
  unfold bindLeaf.
  destruct (viper sch), (cmd sch), (flagOf (leafValue l)) as [[t d]|];
    try apply sameSettings_refl.
  by repeat split.
Qed.

Lemma foldl_bindLeaf_sameSettings prefix ls : ∀ sch,
  sameSettings sch (foldl (bindLeaf prefix) sch ls).
Proof.
  induction ls as [|l ls IH]; intros sch; simpl.
  - apply sameSettings_refl.
  - eapply sameSettings_trans; [apply bindLeaf_sameSettings | apply IH].
Qed.

Lemma bindLeaf_under prefix key sch l :
  bindLeaf prefix sch (under key l) = bindLeaf (withPrefix prefix key) sch l.
Proof. reflexivity. Qed.

Lemma foldl_bindLeaf_under prefix key ls : ∀ sch,
  foldl (bindLeaf prefix) sch (map (under key) ls)
  = foldl (bindLeaf (withPrefix prefix key)) sch ls.
Proof.
  induction ls as [|l ls IH]; intros sch; simpl; [done|].
  by rewrite bindLeaf_under, IH.
Qed.

Lemma bindable_under prefix key ls : ∀ sch,
  bindable (withPrefix prefix key) sch ls →
  bindable prefix sch (map (under key) ls).
Proof.
  induction ls as [|l ls IH]; intros sch; simpl; [done|].
  intros (Hv & Hc & Hf & Hfree & Hrest). repeat split; try done.
  rewrite bindLeaf_under. by apply IH.
Qed.

Lemma bindable_app prefix l1 : ∀ sch l2,
  bindable prefix sch l1 →
  bindable prefix (foldl (bindLeaf prefix) sch l1) l2 →
  bindable prefix sch (l1 ++ l2).
Proof.
  induction l1 as [|l l1 IH]; intros sch l2; simpl; [done|].
  intros (Hv & Hc & Hf & Hfree & Hrest) H2. repeat split; try done.
  by apply IH.
Qed.

Lemma binds_app prefix l1 l2 a b c :
  binds prefix l1 a b → binds prefix l2 b c → binds prefix (l1 ++ l2) a c.
Proof.
  intros [-> H1] [-> H2]. split.
  - by rewrite foldl_app.
  - by apply bindable_app.
Qed.

Lemma binds_sameSettings prefix ls sch sch' :
  binds prefix ls sch sch' → sameSettings sch sch'.
Proof. intros [-> _]. apply foldl_bindLeaf_sameSettings. Qed.

(** ** One field *)

(** The field is a nil pointer or interface: the walk panics. *)
Lemma bindField_nil rec prefix sf fv sch :
  isNilRef fv = true →
  bindField rec prefix sf fv sch
  = Panics (Sprintf "BUG: got nil for field: %s" [AString (Name sf)]).
Proof. intros H. unfold bindField. by rewrite H. Qed.

(** The field has no field-key tag and is not nil: it is passed over or
    the walk panics, as [ignoreUntaggedFields] says. *)
Lemma bindField_untagged rec prefix sf fv sch :
  isNilRef fv = false →
  Get (Tag sf) (fieldTagName sch) = "" →
  bindField rec prefix sf fv sch
  = if ignoreUntaggedFields sch then Returns tt sch
    else Panics (Sprintf "BUG: got untagged field: %s" [AString (Name sf)]).
Proof.
  intros Hnil Htag. unfold bindField. rewrite Hnil. unfold_run.
  rewrite Htag. simpl. by destruct (ignoreUntaggedFields sch).
Qed.

(** When the body of the loop returns, it has bound the leaves of the
    field, provided the nested call does so for the nested struct. *)
Lemma bindField_binds rec prefix sf fv sch sch' :
  (isStruct (indirect fv) = true →
   ∀ key s s', rec (indirect fv) key s = Returns tt s' →
     binds key (leaves (fieldTagName s) (indirect fv)) s s') →
  bindField rec prefix sf fv sch = Returns tt sch' →
  binds prefix
    (fieldLeaves (leaves (fieldTagName sch)) (fieldTagName sch) (sf, fv))
    sch sch'.
Proof.
  intros IH H. unfold bindField in H.
  destruct (isNilRef fv) eqn:Hnil; [discriminate|].
  unfold fieldLeaves. simpl.
  unfold bind at 1 in H. unfold gets at 1 in H. simpl in H.
  destruct (Strings.isEmpty (Get (Tag sf) (fieldTagName sch))) eqn:Htag.
  { destruct (ignoreUntaggedFields sch); [|discriminate].
    injection H as <-. by split. }
  set (key := Strings.firstSegment (Get (Tag sf) (fieldTagName sch))) in *.
  assert (Hleaf :
    (bind (applySetting (indirect fv) (negb (Strings.IsExported (Name sf)))
             (withPrefix prefix key) (Get (Tag sf) (flagHelpTagName sch)))
       (fun err =>
          match err with
          | Some e => panic e
          | None =>
              bind (onFlags (fun c =>
                      Returns (Cobra.Lookup c (withPrefix prefix key)) c))
                (fun flag =>
                   bind (onViper (Viper.BindPFlag (withPrefix prefix key) flag))
                     (fun err =>
                        match err with
                        | Some e => panic e
                        | None =>
                            if Strings.isEmpty (Get (Tag sf) (envTagName sch))
                            then ret tt
                            else
                              bind (onViper (Viper.BindEnv (withPrefix prefix key)
                                               (Get (Tag sf) (envTagName sch))))
                                (fun err => match err with
                                            | Some e => panic e
                                            | None => ret tt
                                            end)
                        end))
          end)) sch = Returns tt sch' →
    binds prefix
      [{| leafPath := [key]; leafField := sf; leafValue := indirect fv |}]
      sch sch').
  { clear H IH. intros H. unfold bind at 1 in H.
    destruct (applySetting _ _ _ _ sch) as [[e|] s1|] eqn:Happ;
      [discriminate| |discriminate].
    apply applySetting_ok in Happ.
    destruct Happ as (t & d & v & c & Hflag & Hv & Hc & Hfree & ->).
    unfold_run. unfold Cobra.Lookup in H. simpl in H.
    rewrite lookup_insert_eq in H. simpl in H.
    unfold binds. simpl. unfold bindLeaf, leafKey, dotted, leafEnv. simpl.
    rewrite Hv, Hc, Hflag.
    destruct (Strings.isEmpty (Get (Tag sf) (envTagName sch))) eqn:Henv;
      simpl in H; injection H as <-.
    - split; [reflexivity|]. unfold flagsOf. rewrite Hc. eauto 10.
    - split; [reflexivity|]. unfold flagsOf. rewrite Hc. eauto 10. }
  destruct (indirect fv) as [b|k n|k n|k x|s|xs|ty|m|ty|t fs|o|o|k] eqn:Hind;
    try (destruct (Strings.isEmpty (Get (Tag sf) (flagHelpTagName sch)));
         [discriminate|]; by apply Hleaf).
  destruct (Strings.IsExported (Name sf)); [|discriminate].
  apply IH in H; [|done]. destruct H as [-> Hb]. split.
  - by rewrite foldl_bindLeaf_under.
  - by apply bindable_under.
Qed.

(** ** The walk *)

Lemma eachField_cons body f rest sch :
  eachField body (f :: rest) sch
  = match body f.1 f.2 sch with
    | Returns _ s => eachField body rest s
    | Panics p => Panics p
    end.
Proof. by destruct f. Qed.

Lemma eachField_app body pre : ∀ post sch,
  eachField body (pre ++ post) sch
  = match eachField body pre sch with
    | Returns _ s => eachField body post s
    | Panics p => Panics p
    end.
Proof.
  induction pre as [|f pre IH]; intros post sch; [done|].
  rewrite <- app_comm_cons, !eachField_cons.
  destruct (body f.1 f.2 sch); [apply IH | done].
Qed.

Definition addFlags_binds_at (input : Value) : Prop :=
  ∀ prefix sch sch',
    addFlags input prefix sch = Returns tt sch' →
    binds prefix (leaves (fieldTagName sch) input) sch sch'.

Lemma indirect_binds_at fv :
  addFlags_binds_at fv →
  isStruct (indirect fv) = true →
  ∀ key s s', addFlags (indirect fv) key s = Returns tt s' →
    binds key (leaves (fieldTagName s) (indirect fv)) s s'.
Proof.
  intros IH Hs key s s' H.
  destruct fv as [| | | | | | | | | t fs|[x|]|[x|]|]; simpl in *;
    try discriminate.
  - by apply IH.
  - destruct x; try discriminate. by apply IH.
  - destruct x; try discriminate. by apply IH.
Qed.

Lemma eachField_binds prefix fields :
  Forall (fun f => addFlags_binds_at f.2) fields →
  ∀ sch sch',
    eachField (bindField addFlags prefix) fields sch = Returns tt sch' →
    binds prefix
      (flat_map (fieldLeaves (leaves (fieldTagName sch)) (fieldTagName sch))
         fields) sch sch'.
Proof.
  induction 1 as [|[sf fv] rest Hf _ IH]; intros sch sch' H.
  - injection H as <-. by split.
  - rewrite eachField_cons in H. simpl in H.
    destruct (bindField addFlags prefix sf fv sch) as [[] s1|] eqn:Hfield;
      [|discriminate].
    apply bindField_binds in Hfield; [|by apply indirect_binds_at].
    apply IH in H.
    pose proof (binds_sameSettings _ _ _ _ Hfield) as (_ & Htag & _).
    rewrite Htag in H. simpl. eapply binds_app; eauto.
Qed.

(** [addFlags], when it returns, has bound the leaves of its input, in
    order, each under the dotted key of its path, and each could be. *)
Lemma addFlags_binds input : addFlags_binds_at input.
Proof.
  induction input as [t fields IH|o IH|o IH|v Hv] using Value_nested_ind;
    intros prefix sch sch' H.
  - simpl in *. by apply eachField_binds.
  - destruct o as [[]|]; simpl in *; try discriminate. by apply IH.
  - destruct o as [[]|]; simpl in *; try discriminate. by apply IH.
  - destruct v; try done; discriminate.
Qed.

Lemma AddFlags_binds sch sch' :
  AddFlags sch = Returns tt sch' →
  ∃ input, resultStruct sch = Some input
    ∧ binds "" (leaves (fieldTagName sch) input) sch sch'.
Proof.
  unfold AddFlags. unfold_run.
  destruct (resultStruct sch) as [input|]; [|discriminate].
  intros H. exists input. split; [done|]. by apply addFlags_binds.
Qed.

(** ** What the stores hold after binding *)

Lemma bindLeaf_fileSettings prefix sch l :
  fileSettings (bindLeaf prefix sch l) = fileSettings sch.
Proof.
  unfold bindLeaf, fileSettings.
  destruct (viper sch) as [v|] eqn:Hv, (cmd sch) as [c|],
    (flagOf (leafValue l)) as [[t d]|]; rewrite ?Hv; try done.
  simpl. by destruct (Strings.isEmpty (leafEnv sch l)).
Qed.

Lemma foldl_bindLeaf_fileSettings prefix ls : ∀ sch,
  fileSettings (foldl (bindLeaf prefix) sch ls) = fileSettings sch.
Proof.
  induction ls as [|l ls IH]; intros sch; simpl; [done|].
  by rewrite IH, bindLeaf_fileSettings.
Qed.

(** Binding a leaf leaves the other keys as they were. *)
Lemma bindLeaf_other prefix sch l key :
  key ≠ leafKey prefix l →
  bindingsAt key (bindLeaf prefix sch l) = bindingsAt key sch.
Proof.
  intros Hne. unfold bindLeaf, bindingsAt, flagsOf.
  destruct (viper sch) as [v|] eqn:Hv, (cmd sch) as [c|] eqn:Hc,
    (flagOf (leafValue l)) as [[t d]|]; rewrite ?Hv, ?Hc; try done.
  simpl. destruct (Strings.isEmpty (leafEnv sch l)); simpl;
    by rewrite !lookup_insert_ne.
Qed.

(** Binding a leaf whose key is free. *)
Lemma bindLeaf_self prefix sch l v c t d :
  viper sch = Some v → cmd sch = Some c → flagOf (leafValue l) = Some (t, d) →
  bindingsAt (leafKey prefix l) (bindLeaf prefix sch l)
  = (Some (Cobra.newFlag t d (Get (Tag (leafField l)) (flagHelpTagName sch))),
     Some d, Some (leafKey prefix l),
     default [] (Viper.env v !! leafKey prefix l)
       ++ (if Strings.isEmpty (leafEnv sch l) then [] else [leafEnv sch l]))%list.
Proof.
  intros Hv Hc Hf. unfold bindLeaf, bindingsAt, flagsOf. rewrite Hv, Hc, Hf.
  simpl. destruct (Strings.isEmpty (leafEnv sch l)); simpl;
    rewrite !lookup_insert_eq; try done.
  by rewrite app_nil_r.
Qed.

(** A key that has an option is the key of no leaf bound later. *)
Lemma bindable_fresh prefix ls : ∀ sch key,
  bindable prefix sch ls →
  is_Some (flagsOf sch !! key) →
  ∀ l, l ∈ ls → leafKey prefix l ≠ key.
Proof.
  induction ls as [|l0 ls IH]; intros sch key Hb Hkey l Hin.
  - by apply elem_of_nil in Hin.
  - destruct Hb as (Hv & Hc & Hf & Hfree & Hrest).
    assert (Hne : key ≠ leafKey prefix l0).
    { intros ->. rewrite Hfree in Hkey. by destruct Hkey. }
    apply elem_of_cons in Hin as [->|Hin]; [done|].
    eapply IH; eauto.
    pose proof (bindLeaf_other prefix sch l0 key Hne) as Ho.
    unfold bindingsAt in Ho. injection Ho as Ho _ _ _. by rewrite Ho.
Qed.

Lemma foldl_bindLeaf_other prefix ls key : ∀ sch,
  (∀ l, l ∈ ls → leafKey prefix l ≠ key) →
  bindingsAt key (foldl (bindLeaf prefix) sch ls) = bindingsAt key sch.
Proof.
  induction ls as [|l0 ls IH]; intros sch Hne; simpl; [done|].
  rewrite IH.
  - apply bindLeaf_other. intros ->. eapply Hne; [|done]. by left.
  - intros l Hin. apply Hne. by right.
Qed.

(** The keys of the leaves bound are pairwise distinct. *)
Lemma bindable_NoDup prefix ls : ∀ sch,
  bindable prefix sch ls → NoDup (map (leafKey prefix) ls).
Proof.
  induction ls as [|l ls IH]; intros sch Hb; simpl; [constructor|].
  pose proof Hb as (Hv & Hc & Hf & Hfree & Hrest).
  constructor; [|by eapply IH].
  intros Hin. apply list_elem_of_fmap in Hin as (l' & Heq & Hin).
  eapply (bindable_fresh _ _ _ (leafKey prefix l) Hrest); eauto.
  destruct Hv as [v Hv], Hc as [c Hc], Hf as [[t d] Hf].
  pose proof (bindLeaf_self prefix sch l v c t d Hv Hc Hf) as Hs.
  unfold bindingsAt in Hs. injection Hs as Hs _ _ _. by rewrite Hs.
Qed.

(** After the walk, each leaf has its option, not set, its default, its
    key bound to the option and, if it names one, to its variable, after
    those the key was bound to before. *)
Lemma binds_bindingsAt prefix ls : ∀ sch sch' l,
  binds prefix ls sch sch' → l ∈ ls →
  ∃ t d, flagOf (leafValue l) = Some (t, d)
    ∧ bindingsAt (leafKey prefix l) sch'
      = (Some (Cobra.newFlag t d (Get (Tag (leafField l)) (flagHelpTagName sch))),
         Some d, Some (leafKey prefix l),
         (bindingsAt (leafKey prefix l) sch).2
           ++ (if Strings.isEmpty (leafEnv sch l) then [] else [leafEnv sch l]))%list.
Proof.
  induction ls as [|l0 ls IH]; intros sch sch' l [-> Hb] Hin.
  - by apply elem_of_nil in Hin.
  - pose proof Hb as (Hv & Hc & Hf & Hfree & Hrest). simpl.
    destruct Hv as [v Hv], Hc as [c Hc], Hf as [[t d] Hf].
    pose proof (bindLeaf_self prefix sch l0 v c t d Hv Hc Hf) as Hs.
    assert (Hdef : is_Some (flagsOf (bindLeaf prefix sch l0) !! leafKey prefix l0)).
    { unfold bindingsAt in Hs. injection Hs as Hs _ _ _. by rewrite Hs. }
    pose proof (bindable_fresh _ _ _ _ Hrest Hdef) as Hfresh.
    apply elem_of_cons in Hin as [->|Hin].
    + exists t, d. split; [done|].
      rewrite foldl_bindLeaf_other by done. rewrite Hs.
      unfold bindingsAt. by rewrite Hv.
    + destruct (IH (bindLeaf prefix sch l0) _ l (conj eq_refl Hrest) Hin)
        as (t' & d' & Hf' & Hat).
      exists t', d'. split; [done|]. rewrite Hat.
      pose proof (bindLeaf_sameSettings prefix sch l0) as (_ & _ & He & Hh & _).
      unfold leafEnv. rewrite He, Hh.
      rewrite (bindLeaf_other prefix sch l0 (leafKey prefix l)); [done|].
      intros Heq. by eapply Hfresh.
Qed.

(** The options after the walk: those there were and one per leaf. *)
Lemma binds_flags_dom prefix ls : ∀ sch sch',
  binds prefix ls sch sch' →
  dom (flagsOf sch')
  = dom (flagsOf sch) ∪ list_to_set (map (leafKey prefix) ls).
Proof.
  induction ls as [|l ls IH]; intros sch sch' [-> Hb]; simpl.
  - set_solver.
  - destruct Hb as (Hv & Hc & Hf & Hfree & Hrest).
    rewrite (IH (bindLeaf prefix sch l)) by done.
    destruct Hv as [v Hv], Hc as [c Hc], Hf as [[t d] Hf].
    assert (dom (flagsOf (bindLeaf prefix sch l))
            = {[leafKey prefix l]} ∪ dom (flagsOf sch)) as ->.
    { unfold bindLeaf, flagsOf. rewrite Hv, Hc, Hf. simpl.
      by rewrite dom_insert_L. }
    set_solver.
Qed.

(** The defaults after the walk: those there were and one per leaf. *)
Lemma binds_defaults_dom prefix ls : ∀ sch sch',
  binds prefix ls sch sch' →
  dom (from_option Viper.defaults ∅ (viper sch'))
  = dom (from_option Viper.defaults ∅ (viper sch))
    ∪ list_to_set (map (leafKey prefix) ls).
Proof.
  induction ls as [|l ls IH]; intros sch sch' [-> Hb]; simpl.
  - set_solver.
  - destruct Hb as (Hv & Hc & Hf & Hfree & Hrest).
    rewrite (IH (bindLeaf prefix sch l)) by done.
    destruct Hv as [v Hv], Hc as [c Hc], Hf as [[t d] Hf].
    assert (dom (from_option Viper.defaults ∅ (viper (bindLeaf prefix sch l)))
            = {[leafKey prefix l]}
              ∪ dom (from_option Viper.defaults ∅ (viper sch))) as ->.
    { unfold bindLeaf. rewrite Hv, Hc, Hf. simpl.
      destruct (Strings.isEmpty (leafEnv sch l)); simpl;
        by rewrite dom_insert_L. }
    set_solver.
Qed.

(** ** The config file *)

Section ResolutionFacts.

Variable fileExtSupported : string → bool.
Variable w : Viper.World.

Lemma findConfigFile_found sch v isDir :
  configFilePath sch ≠ "" →
  Viper.Stat w (configFilePath sch) = Viper.FileInfo isDir →
  viper sch = Some v →
  findConfigFile fileExtSupported w sch
  = Returns (true, None)
      (set_viper (Some (locate fileExtSupported isDir sch v)) sch).
Proof.
  intros Hpath Hstat Hv. unfold findConfigFile, locate. unfold_run.
  apply isEmpty_false in Hpath. rewrite Hpath, Hstat.
  destruct isDir; simpl; rewrite ?Hv; simpl; [done|].
  destruct (Strings.isEmpty (Strings.trimDot (Strings.Ext (configFilePath sch))));
    simpl; rewrite ?Hv; simpl; [done|].
  destruct (fileExtSupported _); simpl; rewrite ?Hv; simpl; done.
Qed.

Lemma findConfigFile_failed sch notExist err :
  configFilePath sch ≠ "" →
  Viper.Stat w (configFilePath sch) = Viper.StatError notExist err →
  findConfigFile fileExtSupported w sch
  = Returns (false, Some (statFailure (configFilePath sch) notExist err)) sch.
Proof.
  intros Hpath Hstat. unfold findConfigFile. unfold_run.
  apply isEmpty_false in Hpath. rewrite Hpath, Hstat. by destruct notExist.
Qed.

Lemma findConfigFile_nil sch isDir :
  configFilePath sch ≠ "" →
  Viper.Stat w (configFilePath sch) = Viper.FileInfo isDir →
  viper sch = None →
  findConfigFile fileExtSupported w sch = Panics nilDereference.
Proof.
  intros Hpath Hstat Hv. unfold findConfigFile. unfold_run.
  apply isEmpty_false in Hpath. rewrite Hpath, Hstat.
  destruct isDir; simpl; rewrite ?Hv; simpl; [done|].
  destruct (Strings.isEmpty (Strings.trimDot (Strings.Ext (configFilePath sch))));
    simpl; rewrite ?Hv; simpl; [done|].
  destruct (fileExtSupported _); simpl; rewrite ?Hv; simpl; done.
Qed.

Lemma mergeInConfigFile_merged sch :
  configFilePath sch ≠ "" →
  mergeInConfigFile fileExtSupported w sch = merged fileExtSupported w sch.
Proof.
  intros Hpath. unfold mergeInConfigFile, merged.
  unfold bind at 1. unfold gets at 1. cbv beta delta [id].
  rewrite (proj2 (isEmpty_false _) Hpath). unfold bind at 1.
  destruct (Viper.Stat w (configFilePath sch)) as [isDir|notExist err] eqn:Hstat.
  - destruct (viper sch) as [v|] eqn:Hv.
    + rewrite (findConfigFile_found sch v isDir) by done.
      unfold_run. unfold Viper.ReadInConfig.
      destruct (Viper.readConfig _ _ _ _ _); done.
    + by rewrite (findConfigFile_nil sch isDir).
  - by rewrite (findConfigFile_failed sch notExist err).
Qed.

Lemma UnmarshalExact_unfold sch :
  UnmarshalExact fileExtSupported w sch
  = match (if Strings.isEmpty (configFilePath sch) then Returns None sch
           else merged fileExtSupported w sch) with
    | Returns (Some e) s => Returns (Some e) s
    | Returns None s => unmarshalled w s
    | Panics p => Panics p
    end.
Proof.
  unfold UnmarshalExact. unfold bind at 1. unfold gets at 1.
  cbv beta delta [id]. unfold bind at 1.
  assert (Hrest : ∀ s, fieldTagName s = fieldTagName sch →
    bind (if String.eqb (fieldTagName sch) "mapstructure" then ret tt
          else modify (fun sch0 =>
                 set_decoderConfigOptions
                   (decoderConfigOptions sch0 ++ [TagNameOfEngine])%list sch0))
      (fun _ =>
         bind (gets id) (fun sch0 =>
           bind (onViper (fun v =>
                   (Viper.UnmarshalExact w (flagsOf sch0) v (resultStruct sch0)
                      (map (decoderOption sch0) (decoderConfigOptions sch0)), v)))
             (fun err =>
                match err with
                | Some e =>
                    ret (Some (Sprintf "while unmarshalling config, flags, and env vars: %s"
                                 [AError e]))
                | None => ret None
                end))) s
    = unmarshalled w s).
  { intros s Htag. unfold unmarshalled, withTagNameOption. rewrite Htag.
    unfold decoded, decoderConfig.
    destruct (String.eqb (fieldTagName sch) "mapstructure"); unfold_run;
      destruct (viper s) as [v|]; simpl; try done;
      unfold Viper.UnmarshalExact; destruct (Viper.decode _ _ _ _); done. }
  destruct (Strings.isEmpty (configFilePath sch)) eqn:Hpath.
  - unfold ret at 1. by apply Hrest.
  - apply isEmpty_false in Hpath. rewrite mergeInConfigFile_merged by done.
    unfold merged.
    destruct (Viper.Stat w (configFilePath sch)) as [isDir|notExist err]; [|done].
    destruct (viper sch) as [v|]; [|done].
    destruct (Viper.readConfig _ _ _ _ _); [|done].
    by apply Hrest.
Qed.

End ResolutionFacts.

(** * The tests of the package, replayed *)

Example NewSnakeCharmer_options :
  NewSnakeCharmer Tests.fileExtSupported Tests.options
  = Returns None (Tests.engine Tests.testStruct "").
Proof. reflexivity. Qed.

Example AddFlags_expected_names :
  ∃ sch, AddFlags (Tests.engine Tests.testStruct "") = Returns tt sch
    ∧ dom (flagsOf sch) = list_to_set Tests.expectedFlagNames.
Proof.
  eexists. split; [vm_compute; reflexivity|].
  match goal with |- ?a = ?b => apply (bool_decide_unpack (a = b)) end.
  vm_compute. exact I.
Qed.

(** * The claims *)

(** ** Fields that are nil *)

(** C9. In the walk of a struct, a field whose value is a nil pointer or a
    nil interface makes [addFlags] panic as soon as the fields before it
    are bound, whatever its tags and whatever [ignoreUntaggedFields]: the
    nil check comes before the tag is read, so that a field with no
    field-key tag, which would be passed over, stops the binding too. *)
Theorem nil_field_halts_binding sch sch1 t pre structField fieldValue post prefix :
  isNilRef fieldValue = true →
  addFlags (VStruct t pre) prefix sch = Returns tt sch1 →
  addFlags (VStruct t (pre ++ (structField, fieldValue) :: post)) prefix sch
  = Panics (Sprintf "BUG: got nil for field: %s" [AString (Name structField)]).
Proof.
  intros Hnil Hpre. simpl in *. rewrite eachField_app, Hpre.
  rewrite eachField_cons. simpl. by rewrite bindField_nil.
Qed.

Lemma nil_field_halts_binding_witness :
  Get (Tag {| Name := "logger"; Tag := [] |}) "snakecharmer" = ""
  ∧ ignoreUntaggedFields (Tests.engine Tests.withLogger "") = true
  ∧ addFlags Tests.withLogger "" (Tests.engine Tests.withLogger "")
    = Panics (Sprintf "BUG: got nil for field: %s" [AString "logger"]).
Proof.
  split; [reflexivity|]. split; [reflexivity|].
  refine (nil_field_halts_binding (Tests.engine Tests.withLogger "")
           (Tests.after (addFlags Tests.workersConfig "")
              (Tests.engine Tests.withLogger ""))
           (Tests.structType "main.Service")
           [({| Name := "Workers";
                Tag := [("snakecharmer", "workers"); ("env", "WORKERS");
                        ("usage", "Number of workers to run")] |},
             VInt Int 128)]
           {| Name := "logger"; Tag := [] |} (VPtr None) [] ""
           eq_refl _).
  vm_compute. reflexivity.
Defined.

(** ** The config file *)

(** C5. For a config file path that exists and is not a directory,
    [findConfigFile] reports the file found, without error, and tells the
    settings store: the exact path only, the type being left as it was,
    when the extension is one of the supported formats; the configured
    type and the exact path when the path has no extension or one that is
    not supported. *)
Theorem regular_file_told_to_store fileExtSupported w sch v :
  configFilePath sch ≠ "" →
  Viper.Stat w (configFilePath sch) = Viper.FileInfo false →
  viper sch = Some v →
  findConfigFile fileExtSupported w sch
  = Returns (true, None)
      (set_viper
         (Some
            (if negb (Strings.isEmpty (Strings.trimDot (Strings.Ext (configFilePath sch))))
                && fileExtSupported (Strings.trimDot (Strings.Ext (configFilePath sch)))
             then Viper.SetConfigFile (configFilePath sch) v
             else Viper.SetConfigFile (configFilePath sch)
                    (Viper.SetConfigType (configFileType sch) v)))
         sch)
  ∧ Viper.configType (Viper.SetConfigFile (configFilePath sch) v)
    = Viper.configType v.
Proof.
  intros Hpath Hstat Hv. split.
  - by rewrite (findConfigFile_found fileExtSupported w sch v false).
  - unfold Viper.SetConfigFile. by destruct (Strings.isEmpty _).
Qed.

Lemma regular_file_told_to_store_witness :
  findConfigFile Tests.fileExtSupported Tests.world
    (Tests.engine Tests.testStruct "./test-config.json")
  = Returns (true, None)
      (set_viper (Some (Viper.SetConfigFile "./test-config.json" Viper.New))
         (Tests.engine Tests.testStruct "./test-config.json"))
  ∧ findConfigFile Tests.fileExtSupported Tests.world
      (Tests.engine Tests.testStruct "./test.conf")
    = Returns (true, None)
        (set_viper
           (Some (Viper.SetConfigFile "./test.conf"
                    (Viper.SetConfigType "yaml" Viper.New)))
           (Tests.engine Tests.testStruct "./test.conf")).
Proof.
  split.
  - refine (proj1 (regular_file_told_to_store Tests.fileExtSupported Tests.world
             (Tests.engine Tests.testStruct "./test-config.json") Viper.New
             _ eq_refl eq_refl)).
    discriminate.
  - refine (proj1 (regular_file_told_to_store Tests.fileExtSupported Tests.world
             (Tests.engine Tests.testStruct "./test.conf") Viper.New
             _ eq_refl eq_refl)).
    discriminate.
Defined.

(** C6. For a config file path that is not empty, a failure of [os.Stat]
    gives one of two errors, which differ: the path does not exist, or it
    may or may not exist. [findConfigFile] reports the file not found,
    [mergeInConfigFile] and [UnmarshalExact] return the error, and the
    engine and its settings store are left as they were: no config is read
    or merged. *)
Theorem stat_failure_two_errors fileExtSupported w sch notExist err :
  configFilePath sch ≠ "" →
  Viper.Stat w (configFilePath sch) = Viper.StatError notExist err →
  findConfigFile fileExtSupported w sch
  = Returns (false,
             Some (if notExist then notFound (configFilePath sch)
                   else indeterminate (configFilePath sch) err)) sch
  ∧ mergeInConfigFile fileExtSupported w sch
    = Returns (Some (whileFinding (configFilePath sch)
                       (if notExist then notFound (configFilePath sch)
                        else indeterminate (configFilePath sch) err))) sch
  ∧ UnmarshalExact fileExtSupported w sch
    = Returns (Some (whileFinding (configFilePath sch)
                       (if notExist then notFound (configFilePath sch)
                        else indeterminate (configFilePath sch) err))) sch
  ∧ notFound (configFilePath sch) ≠ indeterminate (configFilePath sch) err.
Proof.
  intros Hpath Hstat. repeat split.
  - by rewrite (findConfigFile_failed fileExtSupported w sch notExist err).
  - rewrite mergeInConfigFile_merged by done. unfold merged. by rewrite Hstat.
  - rewrite UnmarshalExact_unfold. rewrite (proj2 (isEmpty_false _) Hpath).
    unfold merged. by rewrite Hstat.
  - discriminate.
Qed.

Lemma stat_failure_two_errors_witness :
  UnmarshalExact Tests.fileExtSupported Tests.world
    (Tests.engine Tests.testStruct "./nonexiting")
  = Returns
      (Some (whileFinding "./nonexiting" (notFound "./nonexiting")))
      (Tests.engine Tests.testStruct "./nonexiting")
  ∧ UnmarshalExact Tests.fileExtSupported Tests.world
      (Tests.engine Tests.testStruct "/root/config.yaml")
    = Returns
        (Some (whileFinding "/root/config.yaml"
                 (indeterminate "/root/config.yaml"
                    (Sprintf "stat %s: permission denied"
                       [AString "/root/config.yaml"]))))
        (Tests.engine Tests.testStruct "/root/config.yaml").
Proof.
  split.
  - refine (proj1 (proj2 (proj2 (stat_failure_two_errors Tests.fileExtSupported
             Tests.world (Tests.engine Tests.testStruct "./nonexiting") true _
             _ eq_refl)))).
    discriminate.
  - refine (proj1 (proj2 (proj2 (stat_failure_two_errors Tests.fileExtSupported
             Tests.world (Tests.engine Tests.testStruct "/root/config.yaml")
             false _ _ eq_refl)))).
    discriminate.
Defined.

(** ** Defaults of slices and maps *)

(** A slice of strings that is nil or empty, and a map that is nil, are
    refused by [applySetting], and nothing is registered. *)
Lemma applySetting_nil_or_empty rv name help sch :
  rv = VStrings None ∨ rv = VStrings (Some []) ∨ rv = VStringMap None →
  applySetting rv false name help sch
  = Returns (Some (Sprintf "BUG: value of flag %q (%T) is nil or empty"
                     [AString name; AType rv])) sch.
Proof. by intros [->|[->| ->]]. Qed.

(** A map that is empty but not nil is accepted when the name is free. *)
Lemma applySetting_empty_map name help sch v c :
  viper sch = Some v → cmd sch = Some c →
  Cobra.PersistentFlags c !! name = None →
  applySetting (VStringMap (Some ∅)) false name help sch
  = Returns None
      (set_viper (Some (Viper.SetDefault name (VStringMap (Some ∅)) v))
         (set_cmd
            (Some (Cobra.withFlag name
                     (Cobra.newFlag Cobra.StringToStringFlag
                        (VStringMap (Some ∅)) help) c)) sch)).
Proof.
  intros Hv Hc Hfree. unfold applySetting. unfold_run. unfold Cobra.define.
  rewrite Hc, Hfree. simpl. by rewrite Hv.
Qed.

(** C2, at the input where the code departs from it. The field [Labels] is
    a [map[string]string] whose default is empty and not nil: [AddFlags]
    returns, and the option [labels] and its default are registered. *)
Theorem empty_map_default_is_bound :
  ∃ sch,
    AddFlags (Tests.engine Tests.withLabels "") = Returns tt sch
    ∧ flagsOf sch !! "labels"
      = Some (Cobra.newFlag Cobra.StringToStringFlag (VStringMap (Some ∅))
                "Labels to attach")
    ∧ bindingsAt "labels" sch
      = (Some (Cobra.newFlag Cobra.StringToStringFlag (VStringMap (Some ∅))
                 "Labels to attach"),
         Some (VStringMap (Some ∅)), Some "labels", []).
Proof. eexists. split; [vm_compute; reflexivity|]. split; reflexivity. Qed.

(** ** Fields without the field-key tag *)

(** A field without the field-key tag whose value is not nil: the walk goes
    on as if the field were not there when [ignoreUntaggedFields] is set,
    and panics when it is not. *)
Lemma untagged_field_ignored_or_fatal sch t structField fieldValue rest prefix :
  isNilRef fieldValue = false →
  Get (Tag structField) (fieldTagName sch) = "" →
  addFlags (VStruct t ((structField, fieldValue) :: rest)) prefix sch
  = if ignoreUntaggedFields sch then addFlags (VStruct t rest) prefix sch
    else Panics (Sprintf "BUG: got untagged field: %s"
                   [AString (Name structField)]).
Proof.
  intros Hnil Htag. simpl. unfold bind.
  rewrite bindField_untagged by done. by destruct (ignoreUntaggedFields sch).
Qed.

(** C4, at the input where the code departs from it. The field [logger]
    has no field-key tag and [ignoreUntaggedFields] is set, but its value
    is a nil pointer: [AddFlags] panics instead of passing over it. *)
Theorem untagged_nil_field_not_ignored :
  ignoreUntaggedFields (Tests.engine Tests.withLogger "") = true
  ∧ Get (Tag {| Name := "logger"; Tag := [] |})
      (fieldTagName (Tests.engine Tests.withLogger "")) = ""
  ∧ AddFlags (Tests.engine Tests.withLogger "")
    = Panics (Sprintf "BUG: got nil for field: %s" [AString "logger"]).
Proof. repeat split. Qed.

(** ** The result struct *)

(** [WithResultStruct] returns an error, and leaves the engine as it was,
    for a value that is not a pointer, for a nil pointer, for a pointer to
    something that is not a struct, and for a pointer to a struct whose
    type is convertible to [time.Time]. *)
Lemma WithResultStruct_rejects fileExtSupported rs sch :
  match rs with
  | VPtr (Some (VStruct t _)) => ConvertibleToTime t = true
  | _ => True
  end →
  ∃ e, applyOption fileExtSupported (WithResultStruct (Some rs)) sch
       = Returns (Some e) sch.
Proof.
  intros H. destruct rs as [| | | | | | | | | |[x|]| |]; simpl; eauto.
  destruct x; simpl; eauto. rewrite H. eauto.
Qed.

(** It sets the result struct for any other value: a pointer to a struct
    whose type is not convertible to [time.Time]. *)
Lemma WithResultStruct_accepts fileExtSupported t fields sch :
  ConvertibleToTime t = false →
  applyOption fileExtSupported
    (WithResultStruct (Some (VPtr (Some (VStruct t fields))))) sch
  = Returns None
      (set_resultStruct (Some (VPtr (Some (VStruct t fields)))) sch).
Proof. intros H. simpl. by rewrite H. Qed.

(** C10, at the input where the code departs from it. For the nil
    interface, which is no pointer, the option makes [NewSnakeCharmer] and
    [Set] panic where an error is to be returned: the message of the error
    asks the zero [reflect.Value] for its type. *)
Theorem WithResultStruct_nil_panics fileExtSupported sch :
  NewSnakeCharmer fileExtSupported [WithResultStruct None]
  = Panics zeroValueType
  ∧ Set_ fileExtSupported [WithResultStruct None] sch = Panics zeroValueType.
Proof. split; reflexivity. Qed.

(** An option leaves the result struct as it was or sets a valid one; only
    [WithResultStruct] can change it. *)
Lemma applyOption_resultStruct fileExtSupported o sch err sch' :
  applyOption fileExtSupported o sch = Returns err sch' →
  (resultStruct sch' = resultStruct sch
   ∨ validResultStruct (resultStruct sch'))
  ∧ (keepsResultStruct o = true → resultStruct sch' = resultStruct sch).
Proof.
  intros H.
  destruct o as [rs| | | | | | | | | |]; simpl in H; unfold_run.
  - destruct rs as [rs|]; [|discriminate].
    destruct rs as [| | | | | | | | | |[x|]| |]; simplify_eq; simpl; auto.
    destruct x as [| | | | | | | | |t fs| | |]; simplify_eq; simpl; auto.
    destruct (ConvertibleToTime t) eqn:Ht; simplify_eq; simpl; auto.
    split; [|done]. right. by exists t, fs.
  - destruct (Strings.isEmpty _); simpl in H; simplify_eq; simpl; auto.
  - destruct (Strings.isEmpty _); simpl in H; simplify_eq; simpl; auto.
  - destruct (Strings.isEmpty _); simpl in H; simplify_eq; simpl; auto.
  - destruct (fileExtSupported _); simpl in H; simplify_eq; simpl; auto.
  - simplify_eq; simpl; auto.
  - destruct (Strings.isEmpty _); simpl in H; simplify_eq; simpl; auto.
  - simplify_eq; simpl; auto.
  - simplify_eq; simpl; auto.
  - simplify_eq; simpl; auto.
  - simplify_eq; simpl; auto.
Qed.

Lemma Set_resultStruct fileExtSupported opts : ∀ sch err sch',
  Set_ fileExtSupported opts sch = Returns err sch' →
  (resultStruct sch' = resultStruct sch
   ∨ validResultStruct (resultStruct sch'))
  ∧ (forallb keepsResultStruct opts = true →
     resultStruct sch' = resultStruct sch).
Proof.
  induction opts as [|o opts IH]; intros sch err sch' H; simpl in H.
  - injection H as <- <-. auto.
  - unfold bind in H.
    destruct (applyOption fileExtSupported o sch) as [e s1|] eqn:Ho;
      [|discriminate].
    apply applyOption_resultStruct in Ho as [Ho1 Ho2].
    destruct e as [e|].
    + injection H as <- <-. split; [done|].
      simpl. intros [? _]%andb_prop. auto.
    + apply IH in H as [H1 H2]. split.
      * destruct H1 as [H1|H1]; [|by right]. rewrite H1. done.
      * simpl. intros [? ?]%andb_prop. rewrite H2, Ho2; auto.
Qed.

Lemma NewSnakeCharmer_resultStruct fileExtSupported opts sch :
  NewSnakeCharmer fileExtSupported opts = Returns None sch →
  validResultStruct (resultStruct sch).
Proof.
  unfold NewSnakeCharmer. unfold bind at 1.
  match goal with |- context [Set_ _ _ ?s] => set (sch0 := s) end.
  destruct (Set_ fileExtSupported opts sch0) as [[e|] s1|] eqn:Hset;
    try discriminate.
  apply Set_resultStruct in Hset as [Hset _].
  unfold_run. destruct (resultStruct s1) as [rs|] eqn:Hrs; [|discriminate].
  intros H.
  assert (Hs : resultStruct sch = resultStruct s1).
  { destruct (viper s1); simpl in H; destruct (cmd s1); simpl in H;
      simplify_eq; done. }
  rewrite Hs, Hrs. by destruct Hset as [Hset|Hset].
Qed.

(** Construction fails when no option sets the result struct. *)
Lemma NewSnakeCharmer_without_resultStruct fileExtSupported opts err sch :
  forallb keepsResultStruct opts = true →
  NewSnakeCharmer fileExtSupported opts = Returns err sch →
  is_Some err.
Proof.
  intros Hopts H. destruct err as [e|]; [eauto|].
  pose proof (NewSnakeCharmer_resultStruct _ _ _ H) as (t & fs & Hrs & _).
  revert H. unfold NewSnakeCharmer. unfold bind at 1.
  match goal with |- context [Set_ _ _ ?s] => set (sch0 := s) end.
  destruct (Set_ fileExtSupported opts sch0) as [[e|] s1|] eqn:Hset;
    try discriminate.
  apply Set_resultStruct in Hset as [_ Hset]. specialize (Hset Hopts).
  unfold_run. rewrite Hset. discriminate.
Qed.






(** ** Dotted keys *)

Lemma dotted_snoc prefix parent child :
  dotted prefix (parent ++ [child]) = withPrefix (dotted prefix parent) child.
Proof. unfold dotted. by rewrite foldl_app. Qed.

(** C3. When [addFlags] returns, the options it has created, and the
    defaults it has set, are those of the leaves of its input and no other:
    one per leaf, under the dotted key of the path of the leaf, which is
    the dotted key of the enclosing struct field joined by a dot to the
    leaf key of the field (the prefix alone when it is empty); a
    struct-typed field gets no option of its own. *)
Theorem nested_keys_are_dotted sch sch' input prefix :
  addFlags input prefix sch = Returns tt sch' →
  dom (flagsOf sch')
  = dom (flagsOf sch)
    ∪ list_to_set (map (leafKey prefix) (leaves (fieldTagName sch) input))
  ∧ dom (from_option Viper.defaults ∅ (viper sch'))
    = dom (from_option Viper.defaults ∅ (viper sch))
      ∪ list_to_set (map (leafKey prefix) (leaves (fieldTagName sch) input))
  ∧ NoDup (map (leafKey prefix) (leaves (fieldTagName sch) input))
  ∧ ∀ l parent child,
      l ∈ leaves (fieldTagName sch) input →
      leafPath l = (parent ++ [child])%list →
      leafKey prefix l = withPrefix (dotted prefix parent) child
      ∧ (dotted prefix parent ≠ "" →
         leafKey prefix l = dotted prefix parent ++ "." ++ child).
Proof.
  intros H%addFlags_binds. repeat split.
  - by apply binds_flags_dom.
  - by apply binds_defaults_dom.
  - destruct H as [_ H]. by eapply bindable_NoDup.
  - unfold leafKey. rewrite H1. apply dotted_snoc.
  - intros Hne. unfold leafKey. rewrite H1, dotted_snoc. unfold withPrefix.
    by rewrite (proj2 (isEmpty_false _) Hne).
Qed.

Lemma nested_keys_are_dotted_witness :
  map (leafKey "") (leaves "snakecharmer" (Tests.ptr Tests.testStruct))
  = ["workers"; "max-burst"; "bind-addr"; "upstreams"; "log.level";
     "log.json"; "log.limit.warn"; "log.limit.error"; "log.dst"]
  ∧ dom (flagsOf (Tests.after AddFlags (Tests.engine Tests.testStruct "")))
    = dom (flagsOf (Tests.engine Tests.testStruct ""))
      ∪ list_to_set
          (map (leafKey "") (leaves "snakecharmer" (Tests.ptr Tests.testStruct))).
Proof.
  split; [reflexivity|].
  refine (proj1 (nested_keys_are_dotted (Tests.engine Tests.testStruct "")
            (Tests.after AddFlags (Tests.engine Tests.testStruct ""))
            (Tests.ptr Tests.testStruct) "" _)).
  vm_compute. reflexivity.
Defined.

Example log_level_key :
  dotted "" ["log"; "level"] = "log.level"
  ∧ dotted "" ["log"; "limit"; "warn"] = "log.limit.warn"
  ∧ withPrefix "log" "level" = "log.level"
  ∧ withPrefix "" "workers" = "workers".
Proof. repeat split. Qed.

(** ** The command line *)

Lemma setFlag_lookup n x c name :
  Cobra.PersistentFlags (Cobra.setFlag n x c) !! name
  = if String.eqb n name then Cobra.setTo x <$> Cobra.PersistentFlags c !! name
    else Cobra.PersistentFlags c !! name.
Proof.
  unfold Cobra.setFlag. simpl. destruct (String.eqb_spec n name) as [->|Hne].
  - by rewrite lookup_alter_eq.
  - by rewrite lookup_alter_ne.
Qed.

(** A flag the command line names is set, to the value of its last
    occurrence; the others are as they were. *)
Lemma setFlags_lookup args : ∀ c name f,
  Cobra.PersistentFlags c !! name = Some f →
  Cobra.PersistentFlags (Cobra.setFlags args c) !! name
  = Some (match argValue args name with
          | Some x => Cobra.setTo x f
          | None => f
          end).
Proof.
  induction args as [|[n x] args IH]; intros c name f Hf; simpl; [done|].
  unfold Cobra.setFlags in *. simpl.
  pose proof (setFlag_lookup n x c name) as Hstep. rewrite Hf in Hstep.
  destruct (String.eqb n name).
  - rewrite (IH _ name (Cobra.setTo x f) Hstep).
    by destruct (argValue args name).
  - rewrite (IH _ name f Hstep). by destruct (argValue args name).
Qed.

(** ** The layers of the settings store *)

Lemma AllSettings_lookup w flags v key :
  Viper.AllSettings w flags v !! key
  = if decide (key ∈ Viper.AllKeys v) then Viper.find w flags v key else None.
Proof.
  unfold Viper.AllSettings. rewrite map_lookup_imap, lookup_gset_to_gmap.
  destruct (decide (key ∈ Viper.AllKeys v)) as [Hin|Hin].
  - by rewrite option_guard_True.
  - by rewrite option_guard_False.
Qed.

Lemma locate_sameLayers fileExtSupported isDir sch v :
  sameLayers v (locate fileExtSupported isDir sch v).
Proof.
  unfold locate, Viper.SetConfigName, Viper.AddConfigPath, Viper.SetConfigFile,
    Viper.SetConfigType.
  repeat (match goal with |- context [if ?b then _ else _] => destruct b end);
    by repeat split.
Qed.

(** When [UnmarshalExact] returns no error, the command, the defaults and
    the bindings are as they were, the decoder has accepted the settings,
    and the config the store holds is the one just read, if there is a
    config file path, and the one it held, if there is none. *)
Lemma UnmarshalExact_ok fileExtSupported w sch sch' :
  UnmarshalExact fileExtSupported w sch = Returns None sch' →
  cmd sch' = cmd sch
  ∧ ∃ v v', viper sch = Some v ∧ viper sch' = Some v' ∧ sameLayers v v'
    ∧ Viper.decode w (decoderConfig sch') (decoded w sch') (resultStruct sch')
      = None
    ∧ if Strings.isEmpty (configFilePath sch)
      then Viper.config v' = Viper.config v
      else Viper.readConfig w (Viper.configFile v') (Viper.configType v')
             (Viper.configName v') (Viper.configPaths v')
           = Viper.ReadOk (Viper.config v').
Proof.
  rewrite UnmarshalExact_unfold.
  assert (Hun : ∀ s s', unmarshalled w s = Returns None s' →
    cmd s' = cmd s
    ∧ ∃ v, viper s = Some v ∧ viper s' = Some v
      ∧ Viper.decode w (decoderConfig s') (decoded w s') (resultStruct s')
        = None).
  { intros s s'. unfold unmarshalled.
    assert (Htag : cmd (withTagNameOption s) = cmd s
                   ∧ viper (withTagNameOption s) = viper s).
    { unfold withTagNameOption. by destruct (String.eqb _ _). }
    destruct Htag as [Hc Hv].
    destruct (viper (withTagNameOption s)) as [v|] eqn:Hv'; [|discriminate].
    intros [= Hdec <-]. simpl. split; [done|]. exists v. repeat split; [done|].
    assert (Heq : ∀ x, decoderConfig (set_viper (Some v) x) = decoderConfig x
                       ∧ (viper x = Some v →
                          decoded w (set_viper (Some v) x) = decoded w x)).
    { intros x. split; [done|]. intros Hx. unfold decoded, flagsOf. simpl.
      by rewrite Hx. }
    destruct (Heq (withTagNameOption s)) as [H1 H2].
    rewrite H1, (H2 Hv'). by destruct (Viper.decode _ _ _ _). }
  destruct (Strings.isEmpty (configFilePath sch)) eqn:Hpath.
  - intros (Hc & v & Hv & Hv' & Hdec)%Hun. split; [done|].
    exists v, v. repeat split; auto.
  - unfold merged.
    destruct (Viper.Stat w (configFilePath sch)) as [isDir|notExist e];
      [|discriminate].
    destruct (viper sch) as [v|] eqn:Hv; [|discriminate].
    pose proof (locate_sameLayers fileExtSupported isDir sch v) as Hl.
    destruct (Viper.readConfig _ _ _ _ _) as [c|e] eqn:Hread; [|discriminate].
    intros (Hc & v' & Hv1 & Hv' & Hdec)%Hun. simpl in *.
    injection Hv1 as <-. split; [done|].
    exists v. eexists. split; [done|]. split; [exact Hv'|].
    split; [apply Hl|]. split; [done|]. exact Hread.
Qed.

(** ** Precedence *)

(** What [find] gives for a key that is bound to an option of its name. *)
Lemma find_bound_key w flags v key f d :
  Viper.pflags v !! key = Some key →
  flags !! key = Some f →
  Viper.defaults v !! key = Some d →
  Viper.find w flags v key
  = Some (precedence (if Cobra.Changed f then Some (Cobra.Current f) else None)
            (Viper.firstEnv w (default [] (Viper.env v !! key)))
            (Viper.config v !! key) d).
Proof.
  intros Hp Hf Hd. unfold Viper.find, Viper.boundFlag, precedence.
  rewrite Hp, Hf, Hd. destruct (Cobra.Changed f); [done|].
  destruct (Viper.firstEnv _ _); [done|].
  by destruct (Viper.config v !! key).
Qed.

Lemma firstEnv_leaf w name :
  Viper.firstEnv w (if Strings.isEmpty name then [] else [name])
  = envValue w name.
Proof.
  unfold envValue. destruct (Strings.isEmpty name); simpl; [done|].
  by destruct (Viper.getEnv w name).
Qed.

(** The engine binds the leaves of its result struct from a fresh settings
    store; the command line then sets some flags; [UnmarshalExact] then
    returns no error. For each leaf, the decoder was given, under the key
    of the leaf, the value the command line set the option to, else the
    value of the environment variable of the leaf, else the value of the
    config file, else the default of the struct. *)
Lemma resolved_by_precedence fileExtSupported w sch0 sch1 sch2 sch3 c1 args l :
  viper sch0 = Some Viper.New →
  AddFlags sch0 = Returns tt sch1 →
  l ∈ boundLeaves sch0 →
  cmd sch1 = Some c1 →
  viper sch2 = viper sch1 →
  cmd sch2 = Some (Cobra.setFlags args c1) →
  UnmarshalExact fileExtSupported w sch2 = Returns None sch3 →
  decoded w sch3 !! leafKey "" l
  = Some (precedence (argValue args (leafKey "" l))
            (envValue w (leafEnv sch0 l))
            (configOf sch3 !! leafKey "" l)
            (defaultOf (leafValue l)))
  ∧ Viper.decode w (decoderConfig sch3) (decoded w sch3) (resultStruct sch3)
    = None
  ∧ ∃ v3, viper sch3 = Some v3
      ∧ if Strings.isEmpty (configFilePath sch2) then Viper.config v3 = ∅
        else Viper.readConfig w (Viper.configFile v3) (Viper.configType v3)
               (Viper.configName v3) (Viper.configPaths v3)
             = Viper.ReadOk (Viper.config v3).
Proof.
  intros Hnew Hadd Hl Hc1 Hv2 Hc2 Hun.
  apply AddFlags_binds in Hadd as (input & Hrs & Hbinds).
  unfold boundLeaves in Hl. rewrite Hrs in Hl.
  destruct (binds_bindingsAt _ _ _ _ _ Hbinds Hl) as (t & d & Hflag & Hat).
  pose proof (foldl_bindLeaf_fileSettings "" (leaves (fieldTagName sch0) input) sch0)
    as Hfile.
  destruct Hbinds as [Hsch1 _]. rewrite <- Hsch1 in Hfile.
  unfold bindingsAt in Hat. rewrite Hnew in Hat. simpl in Hat.
  rewrite lookup_empty in Hat. simpl in Hat.
  unfold flagsOf in Hat. rewrite Hc1 in Hat.
  destruct (viper sch1) as [v1|] eqn:Hv1; [|discriminate].
  simpl in Hat. injection Hat as Hf1 Hd1 Hp1 He1.
  unfold fileSettings in Hfile. rewrite Hv1, Hnew in Hfile.
  injection Hfile as Hcfg1 _ _ _ _.
  apply UnmarshalExact_ok in Hun
    as (Hc3 & v2 & v3 & Hv2' & Hv3 & (Hd3 & Hp3 & He3) & Hdec & Hcfg3).
  rewrite Hv2 in Hv2'. injection Hv2' as <-.
  split; [|split; [done|]].
  - unfold decoded, configOf, flagsOf. rewrite Hv3, Hc3, Hc2.
    rewrite AllSettings_lookup.
    destruct (decide (leafKey "" l ∈ Viper.AllKeys v3)) as [_|Hnot].
    + pose proof (setFlags_lookup args c1 _ _ Hf1) as Hf2.
      rewrite <- Hp3 in Hp1. rewrite <- Hd3 in Hd1.
      rewrite (find_bound_key w _ v3 _ _ d Hp1 Hf2 Hd1).
      rewrite He3, He1, firstEnv_leaf. unfold defaultOf. rewrite Hflag.
      by destruct (argValue args (leafKey "" l)).
    + exfalso. apply Hnot. unfold Viper.AllKeys. rewrite Hd3.
      apply elem_of_union_l, elem_of_union_l, elem_of_union_l, elem_of_dom.
      eauto.
  - exists v3. split; [done|].
    destruct (Strings.isEmpty (configFilePath sch2)); [|done].
    by rewrite Hcfg3, Hcfg1.
Qed.



(** Passing [--workers=999] as well gives 999. *)
Example workers_flag_wins :
  decoded Tests.world
    (Tests.after (UnmarshalExact Tests.fileExtSupported Tests.world)
       (Tests.parsed [("workers", VInt Int64 999)] ""))
  !! "workers" = Some (VInt Int64 999).
Proof.
  refine (proj1 (resolved_by_precedence Tests.fileExtSupported
            Tests.world (Tests.engine Tests.workersConfig "")
            (Tests.after AddFlags (Tests.engine Tests.workersConfig ""))
            (Tests.parsed [("workers", VInt Int64 999)] "")
            (Tests.after (UnmarshalExact Tests.fileExtSupported Tests.world)
               (Tests.parsed [("workers", VInt Int64 999)] ""))
            (Cobra.withFlag "workers"
               (Cobra.newFlag Cobra.Int64Flag (VInt Int64 128)
                  "Number of workers to run") (Cobra.New "test"))
            [("workers", VInt Int64 999)] Tests.workersLeaf
            eq_refl _ _ _ _ _ _)).
  - vm_compute. reflexivity.
  - vm_compute. left.
  - vm_compute. reflexivity.
  - vm_compute. reflexivity.
  - vm_compute. reflexivity.
  - vm_compute. reflexivity.
Qed.

(** With no variable set, the config file gives 256; with no config file
    either, the default 128 is left. *)
Example workers_file_then_default :
  decoded Tests.quietWorld
    (Tests.after (UnmarshalExact Tests.fileExtSupported Tests.quietWorld)
       (Tests.parsed [] "./test-config.json"))
  !! "workers" = Some (VInt Int 256)
  ∧ decoded Tests.quietWorld
      (Tests.after (UnmarshalExact Tests.fileExtSupported Tests.quietWorld)
         (Tests.parsed [] ""))
    !! "workers" = Some (VInt Int64 128).
Proof. split; vm_compute; reflexivity. Qed.

(** ** Resolving twice *)

Lemma set_viper_id sch x : viper sch = x → set_viper x sch = sch.
Proof. destruct sch. simpl. by intros ->. Qed.

Lemma setConfig_setConfig c v :
  Viper.setConfig c (Viper.setConfig c v) = Viper.setConfig c v.
Proof. done. Qed.

(** Telling the store a second time where the config file is changes
    nothing, whether or not a config was read in between. *)
Lemma locate_again fileExtSupported isDir sch v :
  locate fileExtSupported isDir sch (locate fileExtSupported isDir sch v)
  = locate fileExtSupported isDir sch v.
Proof.
  unfold locate. destruct isDir.
  - unfold Viper.SetConfigName, Viper.AddConfigPath.
    destruct (Strings.isEmpty (configFileBaseName sch)),
      (Strings.isEmpty (configFilePath sch)); simpl; try done.
    + destruct (bool_decide (configFilePath sch ∈ Viper.configPaths v)) eqn:Hin;
        simpl; rewrite ?Hin; [done|].
      rewrite bool_decide_eq_true_2; [done|]. set_solver.
    + destruct (bool_decide (configFilePath sch ∈ Viper.configPaths v)) eqn:Hin;
        simpl; rewrite ?Hin; [done|].
      rewrite bool_decide_eq_true_2; [done|]. set_solver.
  - destruct (negb _ && _); unfold Viper.SetConfigFile, Viper.SetConfigType;
      destruct (Strings.isEmpty (configFilePath sch)),
        (Strings.isEmpty (configFileType sch)); done.
Qed.

Lemma locate_setConfig fileExtSupported isDir sch c v :
  locate fileExtSupported isDir sch (Viper.setConfig c v)
  = Viper.setConfig c (locate fileExtSupported isDir sch v).
Proof.
  unfold locate. destruct isDir.
  - unfold Viper.SetConfigName, Viper.AddConfigPath.
    destruct (Strings.isEmpty (configFileBaseName sch)),
      (Strings.isEmpty (configFilePath sch)); simpl; done.
  - destruct (negb _ && _); unfold Viper.SetConfigFile, Viper.SetConfigType;
      destruct (Strings.isEmpty (configFilePath sch)),
        (Strings.isEmpty (configFileType sch)); done.
Qed.

Lemma locate_ext fileExtSupported isDir sch sch' v :
  configFilePath sch' = configFilePath sch →
  configFileType sch' = configFileType sch →
  configFileBaseName sch' = configFileBaseName sch →
  locate fileExtSupported isDir sch' v = locate fileExtSupported isDir sch v.
Proof. unfold locate. by intros -> -> ->. Qed.

(** Once it has returned, it returns the same, and changes nothing, on any
    engine with the store it left and the same config file settings. *)
Lemma beforeDecoding_again fileExtSupported w sch err sch1 sch' :
  beforeDecoding fileExtSupported w sch = Returns err sch1 →
  viper sch' = viper sch1 →
  configFilePath sch' = configFilePath sch →
  configFileType sch' = configFileType sch →
  configFileBaseName sch' = configFileBaseName sch →
  beforeDecoding fileExtSupported w sch' = Returns err sch'.
Proof.
  unfold beforeDecoding. intros H Hv Hpath Htype Hbase. rewrite Hpath.
  destruct (Strings.isEmpty (configFilePath sch)); [by injection H as <- _|].
  unfold merged in *. rewrite Hpath.
  destruct (Viper.Stat w (configFilePath sch)) as [isDir|notExist e];
    [|by injection H as <- _].
  destruct (viper sch) as [v|]; [|discriminate].
  destruct (Viper.readConfig _ _ _ _ _) as [c|e] eqn:Hread;
    injection H as <- <-; simpl in Hv; rewrite Hv;
    rewrite (locate_ext fileExtSupported isDir sch sch') by done.
  - rewrite locate_setConfig, locate_again. simpl. rewrite Hread.
    rewrite setConfig_setConfig. by rewrite (set_viper_id sch' _ Hv).
  - rewrite locate_again, Hread. by rewrite (set_viper_id sch' _ Hv).
Qed.

Lemma withTagNameOption_again sch :
  decoderConfig (withTagNameOption (withTagNameOption sch))
  = decoderConfig (withTagNameOption sch)
  ∧ viper (withTagNameOption sch) = viper sch
  ∧ cmd (withTagNameOption sch) = cmd sch
  ∧ resultStruct (withTagNameOption sch) = resultStruct sch
  ∧ configFilePath (withTagNameOption sch) = configFilePath sch
  ∧ configFileType (withTagNameOption sch) = configFileType sch
  ∧ configFileBaseName (withTagNameOption sch) = configFileBaseName sch.
Proof.
  unfold withTagNameOption.
  destruct (String.eqb (fieldTagName sch) "mapstructure") eqn:Htag;
    simpl; rewrite ?Htag; [done|].
  repeat split. unfold decoderConfig. simpl.
  by rewrite !map_app, !foldl_app.
Qed.

Lemma decoded_ext w sch sch' :
  viper sch' = viper sch → cmd sch' = cmd sch →
  decoded w sch' = decoded w sch.
Proof. unfold decoded, flagsOf. by intros -> ->. Qed.

(** The decoding, done a second time, is given the same configuration and
    the same settings, and answers the same. *)
Lemma unmarshalled_again w sch err sch1 :
  unmarshalled w sch = Returns err sch1 →
  sch1 = withTagNameOption sch
  ∧ ∃ sch2, unmarshalled w sch1 = Returns err sch2
      ∧ decoded w sch2 = decoded w sch1
      ∧ decoderConfig sch2 = decoderConfig sch1
      ∧ resultStruct sch2 = resultStruct sch1.
Proof.
  unfold unmarshalled.
  destruct (withTagNameOption_again sch) as (Hdc & Hv & Hc & Hrs & _).
  destruct (viper (withTagNameOption sch)) as [v|] eqn:Hv1; [|discriminate].
  rewrite (set_viper_id _ _ Hv1). intros [= <- <-]. split; [done|].
  destruct (withTagNameOption_again (withTagNameOption sch))
    as (_ & Hv' & Hc' & Hrs' & _).
  rewrite Hv', Hv1. rewrite (set_viper_id _ (Some v)) by by rewrite Hv'.
  eexists. split; [|by rewrite Hdc, (decoded_ext w _ _ Hv' Hc'), Hrs'].
  by rewrite Hdc, (decoded_ext w _ _ Hv' Hc'), Hrs'.
Qed.

Lemma beforeDecoding_settings fileExtSupported w sch err sch1 :
  beforeDecoding fileExtSupported w sch = Returns err sch1 →
  configFilePath sch1 = configFilePath sch
  ∧ configFileType sch1 = configFileType sch
  ∧ configFileBaseName sch1 = configFileBaseName sch.
Proof.
  unfold beforeDecoding, merged.
  destruct (Strings.isEmpty (configFilePath sch)); [by intros [= _ <-]|].
  destruct (Viper.Stat w (configFilePath sch)); [|by intros [= _ <-]].
  destruct (viper sch); [|discriminate].
  destruct (Viper.readConfig _ _ _ _ _); by intros [= _ <-].
Qed.

(** [UnmarshalExact], called again on the engine it left, with the same
    world, returns the same error or none; the decoder is given the same
    settings, with the same configuration, for the same result struct. *)
Lemma UnmarshalExact_again fileExtSupported w sch err sch1 :
  UnmarshalExact fileExtSupported w sch = Returns err sch1 →
  ∃ sch2,
    UnmarshalExact fileExtSupported w sch1 = Returns err sch2
    ∧ decoded w sch2 = decoded w sch1
    ∧ decoderConfig sch2 = decoderConfig sch1
    ∧ resultStruct sch2 = resultStruct sch1.
Proof.
  rewrite !UnmarshalExact_unfold.
  fold (beforeDecoding fileExtSupported w sch).
  fold (beforeDecoding fileExtSupported w sch1).
  destruct (beforeDecoding fileExtSupported w sch) as [[e|] s1|] eqn:Hpre;
    [| |discriminate].
  - intros [= <- <-].
    destruct (beforeDecoding_settings _ _ _ _ _ Hpre) as (Hp & Ht & Hb).
    rewrite (beforeDecoding_again _ _ _ _ _ s1 Hpre) by done.
    by exists s1.
  - intros Hun. apply unmarshalled_again in Hun as (-> & sch2 & Hun & Heq).
    destruct (withTagNameOption_again s1) as (_ & Hv & _ & _ & Hp & Ht & Hb).
    destruct (beforeDecoding_settings _ _ _ _ _ Hpre) as (Hp1 & Ht1 & Hb1).
    rewrite (beforeDecoding_again _ _ _ _ _ (withTagNameOption s1) Hpre);
      try congruence.
    by exists sch2.
Qed.

(** With a settings store, [UnmarshalExact] does not panic. *)
Lemma UnmarshalExact_returns fileExtSupported w sch :
  is_Some (viper sch) →
  ∃ err sch1, UnmarshalExact fileExtSupported w sch = Returns err sch1.
Proof.
  intros [v Hv]. rewrite UnmarshalExact_unfold.
  assert (Hun : ∀ s x, viper s = Some x → ∃ err s1, unmarshalled w s = Returns err s1).
  { intros s x Hs. unfold unmarshalled.
    destruct (withTagNameOption_again s) as (_ & Hv' & _).
    rewrite Hv', Hs. eauto. }
  destruct (Strings.isEmpty (configFilePath sch)); [by eapply Hun|].
  unfold merged. destruct (Viper.Stat w (configFilePath sch)); [|eauto].
  rewrite Hv. destruct (Viper.readConfig _ _ _ _ _); [|eauto].
  by eapply Hun.
Qed.

(** C7. Resolution is idempotent. [UnmarshalExact], on an engine that has
    its settings store, returns; called again on the engine it left, in the
    same world (same environment, same config file, same flags and
    defaults, which are in the engine), it returns the same error or none,
    and has the decoder copy the same settings, with the same
    configuration, into the same result struct. *)
Theorem resolving_twice_decodes_the_same fileExtSupported w sch :
  is_Some (viper sch) →
  ∃ err sch1 sch2,
    UnmarshalExact fileExtSupported w sch = Returns err sch1
    ∧ UnmarshalExact fileExtSupported w sch1 = Returns err sch2
    ∧ decoded w sch2 = decoded w sch1
    ∧ decoderConfig sch2 = decoderConfig sch1
    ∧ resultStruct sch2 = resultStruct sch1.
Proof.
  intros Hv.
  destruct (UnmarshalExact_returns fileExtSupported w sch Hv) as (err & sch1 & H1).
  destruct (UnmarshalExact_again _ _ _ _ _ H1) as (sch2 & H2 & Heq).
  by exists err, sch1, sch2.
Qed.

Lemma resolving_twice_decodes_the_same_witness :
  ∃ err sch1 sch2,
    UnmarshalExact Tests.fileExtSupported Tests.world
      (Tests.parsed [("workers", VInt Int64 999)] "./test.conf")
    = Returns err sch1
    ∧ UnmarshalExact Tests.fileExtSupported Tests.world sch1 = Returns err sch2
    ∧ decoded Tests.world sch2 = decoded Tests.world sch1
    ∧ decoderConfig sch2 = decoderConfig sch1
    ∧ resultStruct sch2 = resultStruct sch1.
Proof.
  apply (resolving_twice_decodes_the_same Tests.fileExtSupported Tests.world
           (Tests.parsed [("workers", VInt Int64 999)] "./test.conf")).
  vm_compute. eexists. reflexivity.
Defined.

(** The second call of the example, run: no error either time, and the
    same settings. *)
Example resolving_twice_run :
  let sch1 := Tests.after (UnmarshalExact Tests.fileExtSupported Tests.world)
                (Tests.parsed [("workers", VInt Int64 999)] "./test.conf") in
  let sch2 := Tests.after (UnmarshalExact Tests.fileExtSupported Tests.world) sch1 in
  UnmarshalExact Tests.fileExtSupported Tests.world
    (Tests.parsed [("workers", VInt Int64 999)] "./test.conf")
  = Returns None sch1
  ∧ UnmarshalExact Tests.fileExtSupported Tests.world sch1 = Returns None sch2
  ∧ decoded Tests.world sch2 !! "workers" = Some (VInt Int64 999)
  ∧ decoded Tests.world sch2 !! "bind-addr" = Some (VString "127.0.0.255").
Proof.
  cbv zeta. split; [vm_compute; reflexivity|].
  split; [vm_compute; reflexivity|].
  split; vm_compute; reflexivity.
Qed.

(** * Further properties of the code *)

(** ** Construction and options *)

(** An option that returns an error leaves the engine as it was. *)
Lemma applyOption_error fileExtSupported o sch e sch' :
  applyOption fileExtSupported o sch = Returns (Some e) sch' → sch' = sch.
Proof.
  intros H.
  destruct o as [rs| | | | | | | | | |]; simpl in H; unfold_run.
  - destruct rs as [rs|]; [|discriminate].
    destruct rs as [| | | | | | | | | |[x|]| |]; simplify_eq; auto.
    destruct x as [| | | | | | | | |t fs| | |]; simplify_eq; auto.
    destruct (ConvertibleToTime t); simplify_eq; auto.
  - destruct (Strings.isEmpty _); simpl in H; simplify_eq; auto.
  - destruct (Strings.isEmpty _); simpl in H; simplify_eq; auto.
  - destruct (Strings.isEmpty _); simpl in H; simplify_eq; auto.
  - destruct (fileExtSupported _); simpl in H; simplify_eq; auto.
  - simplify_eq.
  - destruct (Strings.isEmpty _); simpl in H; simplify_eq; auto.
  - simplify_eq.
  - simplify_eq.
  - simplify_eq.
  - simplify_eq.
Qed.

Lemma Set_app fileExtSupported a : ∀ b sch,
  Set_ fileExtSupported (a ++ b) sch
  = match Set_ fileExtSupported a sch with
    | Returns None s => Set_ fileExtSupported b s
    | r => r
    end.
Proof.
  induction a as [|o a IH]; intros b sch; simpl; [done|].
  unfold bind. destruct (applyOption fileExtSupported o sch) as [[e|] s|];
    simpl; auto.
Qed.

(** X1. [Set] applies its options in order and stops at the first that
    returns an error: the options before it stay applied, the failing one
    and those after it change nothing, and its error is returned. *)
Theorem Set_stops_at_first_error fileExtSupported a o rest sch s1 e s2 :
  Set_ fileExtSupported a sch = Returns None s1 →
  applyOption fileExtSupported o s1 = Returns (Some e) s2 →
  Set_ fileExtSupported (a ++ o :: rest) sch = Returns (Some e) s1.
Proof.
  intros Ha Ho. rewrite Set_app, Ha. simpl. unfold bind. rewrite Ho.
  by rewrite (applyOption_error _ _ _ _ _ Ho).
Qed.

Lemma Set_stops_at_first_error_witness :
  Set_ Tests.fileExtSupported
    ([WithEnvTagName "environment"]
       ++ WithConfigFileType "xml" :: [WithFlagHelpTagName "help"])
    (Tests.engine Tests.testStruct "")
  = Returns (Some (Sprintf "invalid config file type: %q" [AString "xml"]))
      (set_envTagName "environment" (Tests.engine Tests.testStruct "")).
Proof.
  refine (Set_stops_at_first_error Tests.fileExtSupported
            [WithEnvTagName "environment"] (WithConfigFileType "xml")
            [WithFlagHelpTagName "help"] (Tests.engine Tests.testStruct "")
            _ _ _ eq_refl eq_refl).
Defined.

Lemma applyOption_cmd fileExtSupported o sch err sch' :
  applyOption fileExtSupported o sch = Returns err sch' →
  keepsCommand o = true → cmd sch' = cmd sch.
Proof.
  intros H.
  destruct o as [rs| | | | | | | | | |]; simpl in H; unfold_run.
  - destruct rs as [rs|]; [|discriminate].
    destruct rs as [| | | | | | | | | |[x|]| |]; simplify_eq; auto.
    destruct x as [| | | | | | | | |t fs| | |]; simplify_eq; auto.
    destruct (ConvertibleToTime t); simplify_eq; auto.
  - destruct (Strings.isEmpty _); simpl in H; simplify_eq; auto.
  - destruct (Strings.isEmpty _); simpl in H; simplify_eq; auto.
  - destruct (Strings.isEmpty _); simpl in H; simplify_eq; auto.
  - destruct (fileExtSupported _); simpl in H; simplify_eq; auto.
  - simplify_eq; auto.
  - destruct (Strings.isEmpty _); simpl in H; simplify_eq; auto.
  - simplify_eq; auto.
  - simplify_eq; auto.
  - simplify_eq; auto.
  - discriminate.
Qed.

Lemma Set_cmd fileExtSupported opts : ∀ sch err sch',
  Set_ fileExtSupported opts sch = Returns err sch' →
  forallb keepsCommand opts = true → cmd sch' = cmd sch.
Proof.
  induction opts as [|o opts IH]; intros sch err sch' H; simpl in H.
  - by injection H as <- <-.
  - unfold bind in H.
    destruct (applyOption fileExtSupported o sch) as [e s1|] eqn:Ho;
      [|discriminate].
    simpl. intros [Hk Hrest]%andb_prop.
    pose proof (applyOption_cmd _ _ _ _ _ Ho Hk) as Hc.
    destruct e as [e|].
    + by injection H as <- <-.
    + rewrite (IH _ _ _ H Hrest). done.
Qed.

(** Splits [NewSnakeCharmer] into [Set] on the initial engine and the
    checks that follow. *)
Lemma NewSnakeCharmer_inv fileExtSupported opts err sch :
  NewSnakeCharmer fileExtSupported opts = Returns err sch →
  ∃ sch0 e s1,
    resultStruct sch0 = None ∧ cmd sch0 = None ∧ viper sch0 = None
    ∧ decoderConfigOptions sch0 = [] ∧ ignoreUntaggedFields sch0 = false
    ∧ wellNamed fileExtSupported sch0
    ∧ Set_ fileExtSupported opts sch0 = Returns e s1
    ∧ match e with
      | Some x => err = Some x ∧ sch = s1
      | None =>
          match resultStruct s1 with
          | None => is_Some err ∧ sch = s1
          | Some _ =>
              sch = match viper s1 with
                    | Some _ => s1
                    | None => set_viper (Some Viper.New) s1
                    end
              ∧ match cmd s1 with
                | None => is_Some err
                | Some _ => err = None
                end
          end
      end.
Proof.
  unfold NewSnakeCharmer. unfold bind at 1.
  match goal with |- context [Set_ _ _ ?s] => set (sch0 := s) end.
  intros H. exists sch0.
  destruct (Set_ fileExtSupported opts sch0) as [e s1|] eqn:Hset;
    [|discriminate].
  exists e, s1. repeat split; try done.
  - by left.
  - destruct e as [x|]; [by injection H as <- <-|].
    unfold_run. destruct (resultStruct s1); [|injection H as <- <-; eauto].
    destruct (viper s1); simpl in H; destruct (cmd s1) eqn:Hc; simpl in H;
      simplify_eq; simpl; rewrite ?Hc; eauto.
Qed.

(** X2. When [NewSnakeCharmer] returns no error, the engine has a result
    struct that is a non-nil pointer to a struct, a command, and a
    settings store. *)
Theorem NewSnakeCharmer_complete fileExtSupported opts sch :
  NewSnakeCharmer fileExtSupported opts = Returns None sch →
  validResultStruct (resultStruct sch) ∧ is_Some (cmd sch)
  ∧ is_Some (viper sch).
Proof.
  intros H. split; [by eapply NewSnakeCharmer_resultStruct|].
  apply NewSnakeCharmer_inv in H
    as (sch0 & e & s1 & _ & _ & _ & _ & _ & _ & _ & H).
  destruct e as [x|]; [by destruct H|].
  destruct (resultStruct s1); [|by destruct H as [[] _]].
  destruct H as [-> H]. destruct (cmd s1) eqn:Hc; [|by destruct H].
  destruct (viper s1) eqn:Hv; simpl; rewrite ?Hc, ?Hv; eauto.
Qed.

Lemma NewSnakeCharmer_complete_witness :
  validResultStruct (resultStruct (Tests.engine Tests.testStruct ""))
  ∧ is_Some (cmd (Tests.engine Tests.testStruct ""))
  ∧ is_Some (viper (Tests.engine Tests.testStruct "")).
Proof.
  exact (NewSnakeCharmer_complete Tests.fileExtSupported Tests.options
           (Tests.engine Tests.testStruct "") eq_refl).
Defined.

(** X3. [NewSnakeCharmer] returns an error whenever no option sets the
    result struct, and whenever no option sets the command. *)
Theorem NewSnakeCharmer_requires fileExtSupported opts err sch :
  NewSnakeCharmer fileExtSupported opts = Returns err sch →
  forallb keepsResultStruct opts = true ∨ forallb keepsCommand opts = true →
  is_Some err.
Proof.
  intros H [Hopts|Hopts].
  - by eapply NewSnakeCharmer_without_resultStruct.
  - apply NewSnakeCharmer_inv in H
      as (sch0 & e & s1 & _ & Hc0 & _ & _ & _ & _ & Hset & H).
    pose proof (Set_cmd _ _ _ _ _ Hset Hopts) as Hc. rewrite Hc0 in Hc.
    destruct e as [x|]; [destruct H as [-> _]; eauto|].
    destruct (resultStruct s1); [|by destruct H].
    rewrite Hc in H. by destruct H.
Qed.

Lemma NewSnakeCharmer_requires_witness :
  is_Some
    (errorOf (NewSnakeCharmer Tests.fileExtSupported
                [WithResultStruct (Some (Tests.ptr Tests.testStruct))])).
Proof.
  refine (NewSnakeCharmer_requires Tests.fileExtSupported
            [WithResultStruct (Some (Tests.ptr Tests.testStruct))] _
            (stateOf (NewSnakeCharmer Tests.fileExtSupported
                        [WithResultStruct (Some (Tests.ptr Tests.testStruct))])
               (Tests.engine Tests.testStruct ""))
            eq_refl (or_intror eq_refl)).
Defined.

(** ** Names *)












(** ** [applySetting] *)

Lemma applySetting_readOnly rv name help sch sch' :
  applySetting rv true name help sch = Returns None sch' →
  needsInterface rv = false.
Proof. intros H. destruct rv; try done; simpl in H; discriminate. Qed.

(** X5. [applySetting] returns no error exactly when the value gives an
    option (a bool, an integer, a float, a string, a [[]string] that is not
    empty, a [map[string]string] that is not nil), read from an exported
    field if it is a slice or a map, both stores are there and the name is
    free; it then adds that option, not set, with the value as default and
    the help text, and sets the same default in the settings store. *)
Theorem applySetting_registers rv readOnly name help sch sch' :
  applySetting rv readOnly name help sch = Returns None sch'
  ↔ ∃ t d v c,
      flagOf rv = Some (t, d)
      ∧ (readOnly = true → needsInterface rv = false)
      ∧ viper sch = Some v ∧ cmd sch = Some c
      ∧ Cobra.PersistentFlags c !! name = None
      ∧ sch' = set_viper (Some (Viper.SetDefault name d v))
                 (set_cmd (Some (Cobra.withFlag name (Cobra.newFlag t d help) c))
                    sch).
Proof.
  split.
  - intros H. destruct (applySetting_ok _ _ _ _ _ _ H)
      as (t & d & v & c & Hf & Hv & Hc & Hfree & ->).
    exists t, d, v, c. repeat split; try done.
    intros ->. by eapply applySetting_readOnly.
  - intros (t & d & v & c & Hf & Hro & Hv & Hc & Hfree & ->).
    assert (Hreg : ∀ t d,
      (bind (onFlags (Cobra.define t name d help))
         (fun _ => bind (onViper (fun v => (tt, Viper.SetDefault name d v)))
                     (fun _ => ret (None : error)))) sch
      = Returns None
          (set_viper (Some (Viper.SetDefault name d v))
             (set_cmd (Some (Cobra.withFlag name (Cobra.newFlag t d help) c))
                sch))).
    { intros t0 d0. unfold_run. unfold Cobra.define.
      rewrite Hc, Hfree. simpl. by rewrite Hv. }
    destruct rv as [b|k n|k n|k x|s|[[|x xs]|]|ty|[m|]|ty|st fs|o|o|k];
      simpl in Hf; simplify_eq; simpl; try apply Hreg.
    + destruct readOnly; [by specialize (Hro eq_refl)|]. apply Hreg.
    + destruct readOnly; [by specialize (Hro eq_refl)|]. apply Hreg.
Qed.

Lemma applySetting_registers_witness :
  applySetting (VUint Uint8 7) true "retries" "Number of retries"
    (Tests.engine Tests.testStruct "")
  = Returns None
      (set_viper (Some (Viper.SetDefault "retries" (VUint Uint64 7) Viper.New))
         (set_cmd
            (Some (Cobra.withFlag "retries"
                     (Cobra.newFlag Cobra.Uint64Flag (VUint Uint64 7)
                        "Number of retries") (Cobra.New "test")))
            (Tests.engine Tests.testStruct ""))).
Proof.
  apply (proj2 (applySetting_registers (VUint Uint8 7) true "retries"
                  "Number of retries" (Tests.engine Tests.testStruct "") _)).
  exists Cobra.Uint64Flag, (VUint Uint64 7), Viper.New, (Cobra.New "test").
  repeat split.
Defined.

(** X6. When [applySetting] returns an error, the value gives no option,
    nothing is registered in either store, and the error is one of three:
    the kind is not supported, the slice or map is not of strings, or the
    slice or map of strings is nil or (for a slice) empty. *)
Theorem applySetting_error_registers_nothing rv readOnly name help sch e sch' :
  applySetting rv readOnly name help sch = Returns (Some e) sch' →
  sch' = sch ∧ flagOf rv = None
  ∧ (e = unsupportedType rv ∨ e = invalidType rv name ∨ e = nilOrEmpty rv name).
Proof.
  intros H.
  assert (Hreg : ∀ t d,
    (bind (onFlags (Cobra.define t name d help))
       (fun _ => bind (onViper (fun v => (tt, Viper.SetDefault name d v)))
                   (fun _ => ret (None : error)))) sch
    ≠ Returns (Some e) sch').
  { intros t d. unfold_run. unfold Cobra.define.
    destruct (cmd sch) as [c|]; [|done].
    destruct (Cobra.PersistentFlags c !! name); [done|]. simpl.
    by destruct (viper sch). }
  destruct rv as [b|k n|k n|k x|s|[[|x xs]|]|ty|[m|]|ty|st fs|o|o|k];
    simpl in H; try (by apply Hreg in H);
    try destruct readOnly; unfold_run; simplify_eq;
    try (by apply Hreg in H);
    unfold unsupportedType, invalidType, nilOrEmpty; simpl; auto.
Qed.

Lemma applySetting_error_registers_nothing_witness :
  stateOf (applySetting (VPtr (Some (VInt Int 3))) false "depth" "Depth"
             (Tests.engine Tests.testStruct ""))
    (Tests.engine Tests.workersConfig "")
  = Tests.engine Tests.testStruct ""
  ∧ flagOf (VPtr (Some (VInt Int 3))) = None.
Proof.
  pose proof (applySetting_error_registers_nothing
                (VPtr (Some (VInt Int 3))) false "depth" "Depth"
                (Tests.engine Tests.testStruct "")
                (Sprintf "BUG: unsupported type: %q" [AKind Ptr])
                (stateOf (applySetting (VPtr (Some (VInt Int 3))) false "depth"
                            "Depth" (Tests.engine Tests.testStruct ""))
                   (Tests.engine Tests.workersConfig ""))
                eq_refl) as (H1 & H2 & _).
  exact (conj H1 H2).
Defined.

(** ** What [AddFlags] leaves in the stores *)

(** X7. After [AddFlags], every leaf of the result struct has, under its
    dotted key: an option of the type of its value, not set, whose default
    is the value and whose help text is the usage tag; the same default in
    the settings store; the key bound to that option; and the key bound to
    the variable of the env tag, if there is one, after the variables it
    was bound to before. *)
Theorem AddFlags_binds_every_leaf sch sch' l :
  AddFlags sch = Returns tt sch' →
  l ∈ boundLeaves sch →
  ∃ t d,
    flagOf (leafValue l) = Some (t, d)
    ∧ bindingsAt (leafKey "" l) sch'
      = (Some (Cobra.newFlag t d (Get (Tag (leafField l)) (flagHelpTagName sch))),
         Some d, Some (leafKey "" l),
         (bindingsAt (leafKey "" l) sch).2
           ++ (if Strings.isEmpty (leafEnv sch l) then [] else [leafEnv sch l]))%list.
Proof.
  intros (input & Hrs & Hb)%AddFlags_binds Hl.
  unfold boundLeaves in Hl. rewrite Hrs in Hl.
  by eapply binds_bindingsAt.
Qed.

Lemma AddFlags_binds_every_leaf_witness :
  ∃ t d,
    flagOf (VInt Int 128) = Some (t, d)
    ∧ bindingsAt "workers" (Tests.parsed [] "")
      = (Some (Cobra.newFlag t d "Number of workers to run"), Some d,
         Some "workers", ["WORKERS"]).
Proof.
  refine (AddFlags_binds_every_leaf (Tests.engine Tests.workersConfig "")
            (Tests.parsed [] "") Tests.workersLeaf _ _).
  - vm_compute. reflexivity.
  - vm_compute. left.
Defined.

(** X8. [AddFlags] changes nothing but the options of the command and the
    defaults and bindings of the settings store: the settings of the
    engine, the config the store holds and the settings of its config-file
    lookup are as before, and every option the command had is still there,
    unchanged. *)
Theorem AddFlags_frame sch sch' :
  AddFlags sch = Returns tt sch' →
  sameSettings sch sch'
  ∧ fileSettings sch' = fileSettings sch
  ∧ ∀ name f, flagsOf sch !! name = Some f → flagsOf sch' !! name = Some f.
Proof.
  intros (input & Hrs & Hb)%AddFlags_binds. split; [|split].
  - by eapply binds_sameSettings.
  - destruct Hb as [-> _]. apply foldl_bindLeaf_fileSettings.
  - intros name f Hf. destruct Hb as [-> Hb].
    pose proof (foldl_bindLeaf_other "" (leaves (fieldTagName sch) input) name sch)
      as Ho.
    unfold bindingsAt in Ho.
    assert (Hfresh : ∀ l, l ∈ leaves (fieldTagName sch) input → leafKey "" l ≠ name).
    { eapply bindable_fresh; eauto. }
    specialize (Ho Hfresh). injection Ho as Ho _ _ _. by rewrite Ho.
Qed.

Lemma AddFlags_frame_witness :
  sameSettings (Tests.engine Tests.workersConfig "") (Tests.parsed [] "")
  ∧ fileSettings (Tests.parsed [] "")
    = fileSettings (Tests.engine Tests.workersConfig "").
Proof.
  pose proof (AddFlags_frame (Tests.engine Tests.workersConfig "")
                (Tests.parsed [] "")) as H.
  assert (Hrun : AddFlags (Tests.engine Tests.workersConfig "")
                 = Returns tt (Tests.parsed [] "")) by (vm_compute; reflexivity).
  exact (conj (proj1 (H Hrun)) (proj1 (proj2 (H Hrun)))).
Defined.

(** X9. [AddFlags] panics when the key of a leaf is already the name of an
    option of the command; in particular it panics when it is called a
    second time on a result struct that has a leaf. *)
Theorem AddFlags_panics_on_taken_name sch :
  (∀ l, l ∈ boundLeaves sch → is_Some (flagsOf sch !! leafKey "" l) →
        ∃ p, AddFlags sch = Panics p)
  ∧ (∀ sch1, AddFlags sch = Returns tt sch1 → boundLeaves sch ≠ [] →
             ∃ p, AddFlags sch1 = Panics p).
Proof.
  assert (Hfirst : ∀ s l, l ∈ boundLeaves s →
            is_Some (flagsOf s !! leafKey "" l) → ∃ p, AddFlags s = Panics p).
  { intros s l Hl Htaken. destruct (AddFlags s) as [[] s'|p] eqn:Hrun; [|eauto].
    exfalso. apply AddFlags_binds in Hrun as (input & Hrs & [_ Hb]).
    unfold boundLeaves in Hl. rewrite Hrs in Hl.
    by eapply (bindable_fresh "" _ s (leafKey "" l) Hb Htaken l Hl). }
  split; [apply Hfirst|].
  intros sch1 Hrun Hne.
  destruct (boundLeaves sch) as [|l ls] eqn:Hls; [done|].
  assert (Hl : l ∈ boundLeaves sch) by (rewrite Hls; left).
  destruct (AddFlags_binds _ _ Hrun) as (input & Hrs & Hb).
  pose proof (binds_sameSettings _ _ _ _ Hb) as (Hrs1 & Htag1 & _).
  apply (Hfirst sch1 l).
  - unfold boundLeaves in *. by rewrite Hrs1, Htag1.
  - unfold boundLeaves in Hl. rewrite Hrs in Hl.
    destruct (binds_bindingsAt _ _ _ _ _ Hb Hl) as (t & d & _ & Hat).
    unfold bindingsAt in Hat. injection Hat as Hat _ _ _. rewrite Hat. eauto.
Qed.

Lemma AddFlags_panics_on_taken_name_witness :
  ∃ p, AddFlags (Tests.parsed [] "") = Panics p.
Proof.
  refine (proj2 (AddFlags_panics_on_taken_name (Tests.engine Tests.workersConfig ""))
            (Tests.parsed [] "") _ _).
  - vm_compute. reflexivity.
  - vm_compute. discriminate.
Defined.


(** ** Help text and fields that are not exported *)










(** ** More on the config file *)

(** X12. For a config file path that is a directory, [findConfigFile]
    reports the file found, without error, and tells the settings store to
    look in that directory for a file with the configured base name: the
    directory is among the search paths, the base name is set and no exact
    file is kept, the type and the config held being as they were. *)
Theorem directory_told_to_store fileExtSupported w sch v :
  configFilePath sch ≠ "" →
  configFileBaseName sch ≠ "" →
  Viper.Stat w (configFilePath sch) = Viper.FileInfo true →
  viper sch = Some v →
  ∃ v',
    findConfigFile fileExtSupported w sch
    = Returns (true, None) (set_viper (Some v') sch)
    ∧ v' = Viper.SetConfigName (configFileBaseName sch)
             (Viper.AddConfigPath (configFilePath sch) v)
    ∧ configFilePath sch ∈ Viper.configPaths v'
    ∧ (∀ dir, dir ∈ Viper.configPaths v → dir ∈ Viper.configPaths v')
    ∧ Viper.configName v' = configFileBaseName sch
    ∧ Viper.configFile v' = ""
    ∧ Viper.configType v' = Viper.configType v
    ∧ Viper.config v' = Viper.config v.
Proof.
  intros Hpath Hbase Hstat Hv. eexists. split.
  - by rewrite (findConfigFile_found fileExtSupported w sch v true).
  - unfold locate, Viper.SetConfigName, Viper.AddConfigPath.
    rewrite (proj2 (isEmpty_false _) Hpath), (proj2 (isEmpty_false _) Hbase).
    simpl. split; [done|].
    destruct (bool_decide (configFilePath sch ∈ Viper.configPaths v)) eqn:Hin.
    + apply bool_decide_eq_true_1 in Hin. repeat split; auto.
    + repeat split; auto; set_solver.
Qed.

Lemma directory_told_to_store_witness :
  ∃ v',
    findConfigFile Tests.fileExtSupported Tests.world
      (set_configFileBaseName "test-config" (Tests.engine Tests.testStruct "./"))
    = Returns (true, None)
        (set_viper (Some v')
           (set_configFileBaseName "test-config"
              (Tests.engine Tests.testStruct "./")))
    ∧ Viper.configPaths v' = ["./"] ∧ Viper.configName v' = "test-config".
Proof.
  destruct (directory_told_to_store Tests.fileExtSupported Tests.world
              (set_configFileBaseName "test-config"
                 (Tests.engine Tests.testStruct "./")) Viper.New)
    as (v' & Hfind & Hv' & _); try reflexivity; try discriminate.
  exists v'. split; [exact Hfind|]. rewrite Hv'. split; reflexivity.
Defined.

(** X13. When the path exists but the config cannot be read or parsed,
    [UnmarshalExact] returns the error of the reading, wrapped with the
    path; it does not decode, and the config the settings store held, its
    defaults and its bindings are as they were. *)
Theorem read_error_is_returned fileExtSupported w sch v isDir e :
  configFilePath sch ≠ "" →
  Viper.Stat w (configFilePath sch) = Viper.FileInfo isDir →
  viper sch = Some v →
  Viper.readConfig w
    (Viper.configFile (locate fileExtSupported isDir sch v))
    (Viper.configType (locate fileExtSupported isDir sch v))
    (Viper.configName (locate fileExtSupported isDir sch v))
    (Viper.configPaths (locate fileExtSupported isDir sch v))
  = Viper.ReadError e →
  UnmarshalExact fileExtSupported w sch
  = Returns (Some (whileReading (configFilePath sch) e))
      (set_viper (Some (locate fileExtSupported isDir sch v)) sch)
  ∧ Viper.config (locate fileExtSupported isDir sch v) = Viper.config v
  ∧ sameLayers v (locate fileExtSupported isDir sch v).
Proof.
  intros Hpath Hstat Hv Hread. split; [|split].
  - rewrite UnmarshalExact_unfold, (proj2 (isEmpty_false _) Hpath).
    unfold merged. by rewrite Hstat, Hv, Hread.
  - unfold locate, Viper.SetConfigName, Viper.AddConfigPath,
      Viper.SetConfigFile, Viper.SetConfigType.
    repeat (match goal with |- context [if ?b then _ else _] => destruct b end);
      done.
  - apply locate_sameLayers.
Qed.

Lemma read_error_is_returned_witness :
  UnmarshalExact Tests.fileExtSupported Tests.world
    (Tests.engine Tests.testStruct "./")
  = Returns
      (Some (whileReading "./"
               (Sprintf "Config File %q Not Found in %q"
                  [AString "config"; AString ""])))
      (set_viper
         (Some (locate Tests.fileExtSupported true
                  (Tests.engine Tests.testStruct "./") Viper.New))
         (Tests.engine Tests.testStruct "./")).
Proof.
  refine (proj1 (read_error_is_returned Tests.fileExtSupported Tests.world
                   (Tests.engine Tests.testStruct "./") Viper.New true _
                   _ eq_refl eq_refl eq_refl)).
  discriminate.
Defined.

Lemma firstEnv_ext w w' names :
  Viper.LookupEnv w = Viper.LookupEnv w' →
  Viper.firstEnv w names = Viper.firstEnv w' names.
Proof.
  intros H. induction names as [|n names IH]; simpl; [done|].
  unfold Viper.getEnv. by rewrite H, IH.
Qed.

Lemma AllSettings_ext w w' flags v :
  Viper.LookupEnv w = Viper.LookupEnv w' →
  Viper.AllSettings w flags v = Viper.AllSettings w' flags v.
Proof.
  intros H. apply map_eq. intros key. rewrite !AllSettings_lookup.
  destruct (decide (key ∈ Viper.AllKeys v)); [|done].
  unfold Viper.find. by rewrite (firstEnv_ext w w' _ H).
Qed.

(** X14. With an empty config file path, [findConfigFile] and
    [mergeInConfigFile] return an error and change nothing, while
    [UnmarshalExact] skips them: what it does depends neither on the file
    system, nor on what reading a config would give, nor on the supported
    formats. *)
Theorem empty_path_skips_the_file fileExtSupported w sch :
  configFilePath sch = "" →
  findConfigFile fileExtSupported w sch
  = Returns (false, Some (Sprintf "config file path is an empty string" [])) sch
  ∧ mergeInConfigFile fileExtSupported w sch
    = Returns (Some (Sprintf "config file path is an empty string" [])) sch
  ∧ ∀ fileExtSupported' w',
      sameProcess w w' →
      UnmarshalExact fileExtSupported' w' sch
      = UnmarshalExact fileExtSupported w sch.
Proof.
  intros Hpath. split; [|split].
  - unfold findConfigFile. unfold_run. by rewrite Hpath.
  - unfold mergeInConfigFile. unfold_run. by rewrite Hpath.
  - intros fes' w' [Henv Hdec]. rewrite !UnmarshalExact_unfold, Hpath. simpl.
    unfold unmarshalled, decoded.
    destruct (viper (withTagNameOption sch)) as [v|]; [|done].
    by rewrite Hdec, (AllSettings_ext w w' _ _ Henv).
Qed.

Lemma empty_path_skips_the_file_witness :
  mergeInConfigFile Tests.fileExtSupported Tests.world
    (Tests.engine Tests.testStruct "")
  = Returns (Some (Sprintf "config file path is an empty string" []))
      (Tests.engine Tests.testStruct "").
Proof.
  exact (proj1 (proj2 (empty_path_skips_the_file Tests.fileExtSupported
                         Tests.world (Tests.engine Tests.testStruct "")
                         eq_refl))).
Defined.

(** ** The decoder *)

Lemma decoderConfig_withTagNameOption sch :
  fieldTagName sch ≠ "mapstructure" →
  Viper.TagName (decoderConfig (withTagNameOption sch)) = fieldTagName sch.
Proof.
  intros Hne. unfold withTagNameOption.
  destruct (String.eqb_spec (fieldTagName sch) "mapstructure"); [done|].
  unfold decoderConfig. simpl. by rewrite map_app, foldl_app.
Qed.

(** X15. When [UnmarshalExact] returns no error, the decoder has run, and
    accepted the settings, with unused keys an error and, when the
    field-key tag name is not the decoder's own ("mapstructure"), with
    that name as its tag name, whatever decoder options the caller gave. *)
Theorem decoder_honours_tag_name fileExtSupported w sch sch' :
  UnmarshalExact fileExtSupported w sch = Returns None sch' →
  Viper.decode w (decoderConfig sch') (decoded w sch') (resultStruct sch') = None
  ∧ Viper.ErrorUnused (decoderConfig sch') = true
  ∧ (fieldTagName sch ≠ "mapstructure" →
     Viper.TagName (decoderConfig sch') = fieldTagName sch).
Proof.
  intros H. split; [|split; [done|]].
  - by apply UnmarshalExact_ok in H as (_ & v & v' & _ & _ & _ & Hdec & _).
  - revert H. rewrite UnmarshalExact_unfold.
    fold (beforeDecoding fileExtSupported w sch).
    destruct (beforeDecoding fileExtSupported w sch) as [[e|] s1|] eqn:Hpre;
      try discriminate.
    intros (-> & _)%unmarshalled_again Hne.
    assert (Htag : fieldTagName s1 = fieldTagName sch).
    { revert Hpre. unfold beforeDecoding, merged.
      destruct (Strings.isEmpty (configFilePath sch)); [by intros [= <-]|].
      destruct (Viper.Stat w (configFilePath sch)); [|by intros [= <-]].
      destruct (viper sch); [|discriminate].
      destruct (Viper.readConfig _ _ _ _ _); by intros [= <-]. }
    rewrite <- Htag. apply decoderConfig_withTagNameOption. by rewrite Htag.
Qed.

Lemma decoder_honours_tag_name_witness :
  Viper.TagName
    (decoderConfig
       (Tests.after (UnmarshalExact Tests.fileExtSupported Tests.world)
          (Tests.parsed [] "./test.conf")))
  = "snakecharmer".
Proof.
  refine (proj2 (proj2 (decoder_honours_tag_name Tests.fileExtSupported
                          Tests.world (Tests.parsed [] "./test.conf")
                          (Tests.after
                             (UnmarshalExact Tests.fileExtSupported Tests.world)
                             (Tests.parsed [] "./test.conf")) _)) _).
  - vm_compute. reflexivity.
  - vm_compute. discriminate.
Defined.

Lemma foldl_ignoreUntagged sch opts : ∀ dc,
  forallb isIgnoreUntagged opts = true →
  Viper.IgnoreUntaggedFields
    (foldl (fun dc o => o dc) dc (map (decoderOption sch) opts))
  = foldl (fun b o => match o with IgnoreUntagged on => on | _ => b end)
      (Viper.IgnoreUntaggedFields dc) opts.
Proof.
  induction opts as [|o opts IH]; intros dc Hall; simpl; [done|].
  simpl in Hall. apply andb_prop in Hall as [Ho Hall].
  destruct o; try discriminate. by rewrite IH.
Qed.

(** The decoder options are those of [WithIgnoreUntaggedFields] alone, and
    the last agrees with the flag of the engine. *)
Definition untaggedAgree (sch : SnakeCharmer) : Prop :=
  forallb isIgnoreUntagged (decoderConfigOptions sch) = true
  ∧ lastIgnoreUntagged (decoderConfigOptions sch) = ignoreUntaggedFields sch.

Lemma applyOption_untaggedAgree fileExtSupported o sch err sch' :
  applyOption fileExtSupported o sch = Returns err sch' →
  keepsDecoder o = true → untaggedAgree sch → untaggedAgree sch'.
Proof.
  intros H Hk Hu. pose proof Hu as [Hall Hlast].
  destruct o as [rs| | | | | | | | | |]; simpl in H; unfold_run;
    try discriminate.
  - destruct rs as [rs|]; [|discriminate].
    destruct rs as [| | | | | | | | | |[x|]| |]; simplify_eq; try done.
    destruct x as [| | | | | | | | |t fs| | |]; simplify_eq; try done.
    destruct (ConvertibleToTime t); simplify_eq; done.
  - destruct (Strings.isEmpty _); simpl in H; simplify_eq; done.
  - destruct (Strings.isEmpty _); simpl in H; simplify_eq; done.
  - destruct (Strings.isEmpty _); simpl in H; simplify_eq; done.
  - destruct (fileExtSupported _); simpl in H; simplify_eq; done.
  - simplify_eq. done.
  - destruct (Strings.isEmpty _); simpl in H; simplify_eq; done.
  - simplify_eq. split; simpl.
    + rewrite forallb_app, Hall. done.
    + unfold lastIgnoreUntagged. by rewrite foldl_app.
  - simplify_eq. done.
  - simplify_eq. done.
Qed.

Lemma Set_untaggedAgree fileExtSupported opts : ∀ sch err sch',
  Set_ fileExtSupported opts sch = Returns err sch' →
  forallb keepsDecoder opts = true → untaggedAgree sch → untaggedAgree sch'.
Proof.
  induction opts as [|o opts IH]; intros sch err sch' H Hk Hu; simpl in H.
  - by injection H as <- <-.
  - unfold bind in H. simpl in Hk. apply andb_prop in Hk as [Ho Hk].
    destruct (applyOption fileExtSupported o sch) as [e s1|] eqn:Happ;
      [|discriminate].
    apply applyOption_untaggedAgree in Happ; [|done..].
    destruct e; [by injection H as <- <-|]. by eapply IH.
Qed.

(** X16. Binding and decoding agree on untagged fields: in the engine
    [NewSnakeCharmer] returns for options that give the decoder no option
    of the caller's own, the decoder ignores untagged fields exactly when
    [AddFlags] does. *)
Theorem decoder_agrees_on_untagged fileExtSupported opts err sch :
  NewSnakeCharmer fileExtSupported opts = Returns err sch →
  forallb keepsDecoder opts = true →
  Viper.IgnoreUntaggedFields (decoderConfig sch) = ignoreUntaggedFields sch.
Proof.
  intros H Hk.
  apply NewSnakeCharmer_inv in H
    as (sch0 & e & s1 & _ & _ & _ & Hopts & Hflag & _ & Hset & H).
  assert (Hu0 : untaggedAgree sch0).
  { unfold untaggedAgree. by rewrite Hopts, Hflag. }
  pose proof (Set_untaggedAgree _ _ _ _ _ Hset Hk Hu0) as [Hall Hlast].
  assert (Hs1 : Viper.IgnoreUntaggedFields (decoderConfig s1)
                = ignoreUntaggedFields s1).
  { unfold decoderConfig. simpl. rewrite foldl_ignoreUntagged by done.
    exact Hlast. }
  destruct e; [by destruct H as [_ ->]|].
  destruct (resultStruct s1); [|by destruct H as [_ ->]].
  destruct H as [-> _]. by destruct (viper s1).
Qed.

Lemma decoder_agrees_on_untagged_witness :
  Viper.IgnoreUntaggedFields (decoderConfig (Tests.engine Tests.testStruct ""))
  = true.
Proof.
  exact (decoder_agrees_on_untagged Tests.fileExtSupported Tests.options None
           (Tests.engine Tests.testStruct "") eq_refl eq_refl).
Defined.

(** ** The leaf key of a tag *)

Lemma firstSegment_noComma key opts :
  noComma key = true →
  Strings.firstSegment (key ++ "," ++ opts) = key
  ∧ Strings.firstSegment key = key.
Proof.
  induction key as [|c key IH]; simpl; [done|].
  intros [Hc Hk]%andb_prop. apply negb_true_iff in Hc. rewrite Hc.
  destruct (IH Hk) as [-> ->]. done.
Qed.

(** X17. What follows the first comma of the field-key tag is not
    interpreted: a field whose tag is [key,options] is bound exactly as
    the same field with the tag [key]. *)
Theorem tag_options_are_ignored rec prefix sf sf' fieldValue sch key opts :
  noComma key = true → key ≠ "" →
  Get (Tag sf) (fieldTagName sch) = key →
  Get (Tag sf') (fieldTagName sch) = key ++ "," ++ opts →
  Name sf' = Name sf →
  Get (Tag sf') (flagHelpTagName sch) = Get (Tag sf) (flagHelpTagName sch) →
  Get (Tag sf') (envTagName sch) = Get (Tag sf) (envTagName sch) →
  bindField rec prefix sf' fieldValue sch = bindField rec prefix sf fieldValue sch.
Proof.
  intros Hno Hne Htag Htag' Hname Hhelp Henv.
  destruct (firstSegment_noComma key opts Hno) as [Hseg' Hseg].
  unfold bindField. rewrite Hname.
  destruct (isNilRef fieldValue); [done|].
  unfold bind, gets. cbv beta delta [id].
  rewrite Htag, Htag', Hseg, Hseg', Hhelp, Henv.
  destruct key; [done|]. reflexivity.
Qed.

Lemma tag_options_are_ignored_witness :
  bindField addFlags ""
    {| Name := "Workers";
       Tag := [("snakecharmer", "workers,omitempty"); ("usage", "Workers")] |}
    (VInt Int 128) (Tests.engine Tests.testStruct "")
  = bindField addFlags ""
      {| Name := "Workers";
         Tag := [("snakecharmer", "workers"); ("usage", "Workers")] |}
      (VInt Int 128) (Tests.engine Tests.testStruct "").
Proof.
  refine (tag_options_are_ignored addFlags ""
            {| Name := "Workers";
               Tag := [("snakecharmer", "workers"); ("usage", "Workers")] |}
            {| Name := "Workers";
               Tag := [("snakecharmer", "workers,omitempty"); ("usage", "Workers")] |}
            (VInt Int 128) (Tests.engine Tests.testStruct "")
            "workers" "omitempty" eq_refl _ eq_refl eq_refl eq_refl eq_refl
            eq_refl).
  discriminate.
Defined.

(** X18. When the path exists and the config is read, [mergeInConfigFile]
    returns no error and the config the settings store holds is the one
    read, in place of the one it held; the defaults and the bindings of the
    store are as they were. *)
Theorem config_read_replaces_config fileExtSupported w sch v isDir c :
  configFilePath sch ≠ "" →
  Viper.Stat w (configFilePath sch) = Viper.FileInfo isDir →
  viper sch = Some v →
  Viper.readConfig w
    (Viper.configFile (locate fileExtSupported isDir sch v))
    (Viper.configType (locate fileExtSupported isDir sch v))
    (Viper.configName (locate fileExtSupported isDir sch v))
    (Viper.configPaths (locate fileExtSupported isDir sch v))
  = Viper.ReadOk c →
  ∃ v',
    mergeInConfigFile fileExtSupported w sch
    = Returns None (set_viper (Some v') sch)
    ∧ Viper.config v' = c
    ∧ sameLayers v v'.
Proof.
  intros Hpath Hstat Hv Hread.
  exists (Viper.setConfig c (locate fileExtSupported isDir sch v)).
  split; [|split; [done|]].
  - rewrite mergeInConfigFile_merged by done. unfold merged.
    by rewrite Hstat, Hv, Hread.
  - apply (locate_sameLayers fileExtSupported isDir sch v).
Qed.

Lemma config_read_replaces_config_witness :
  ∃ v',
    mergeInConfigFile Tests.fileExtSupported Tests.world
      (Tests.engine Tests.testStruct "./test-config.json")
    = Returns None
        (set_viper (Some v') (Tests.engine Tests.testStruct "./test-config.json"))
    ∧ Viper.config v' = Tests.fileConfig
    ∧ sameLayers Viper.New v'.
Proof.
  refine (config_read_replaces_config Tests.fileExtSupported Tests.world
            (Tests.engine Tests.testStruct "./test-config.json") Viper.New
            false Tests.fileConfig _ eq_refl eq_refl _).
  - discriminate.
  - vm_compute. reflexivity.
Defined.

(** ** Setting and getting *)


